(** * pkg/cluster/objects.go: synthesis and reconciliation of the child
      objects of a Postgres cluster

    A shallow embedding of [createStatefulSet], [applySecrets],
    [createService] and [createEndPoint].  Kubernetes API objects are records
    carrying the fields the source sets, Go maps are [gmap]s, the client and
    the logger are threaded through a state monad that can also panic. *)

From Stdlib Require Import ZArith List Permutation.
From Stdlib Require Import Strings.Ascii Strings.String Strings.Byte.
From stdpp Require Import base option list strings gmap fin_maps.

Local Open Scope string_scope.
Local Open Scope list_scope.
Local Open Scope Z_scope.

(** ** External collaborators *)

(** Go's [(T, error)] result of a fallible library call. *)
Inductive result (E A : Type) : Type :=
| Ok (a : A)
| Err (e : E).
Arguments Ok {E A} a.
Arguments Err {E A} e.

(** [k8s.io/client-go/pkg/api/resource]: the quantity type and its parser
    belong to the vendored library; the development is parametric in them. *)
Class QuantityParser : Type := {
  Quantity : Type;
  ParseError : Type;
  ParseQuantity : string -> result ParseError Quantity
}.

(** Modelled from the spec: [credentialSecretName] and [labels] are methods
    of [Cluster] in this package that are not part of objects.go.  Secrets are named by a deterministic function of cluster name
    and role, and the ownership label set is derived from the cluster identity
    alone. *)
Class ClusterNaming : Type := {
  secretName : string -> string -> string;
  ownershipLabels : string -> gmap string string
}.

(** Modelled from the spec: the errors the orchestration client hands back.
    The client contract distinguishes "not found", "already exists" and any
    other failure; [k8sutil.ResourceNotFound] and
    [k8sutil.IsKubernetesResourceAlreadyExistError] (package k8sutil, absent
    from objects.go) recognise the first two.  Go's [error] interface value is
    an [option]: [None] is [nil]. *)
Inductive KubeError : Type :=
| ErrNotFound
| ErrAlreadyExists
| ErrOther (msg : string).

Definition error : Type := option KubeError.

Module k8sutil.

Definition ResourceNotFound (err : error) : bool :=
  match err with
  | Some ErrNotFound => true
  | _ => false
  end.

Definition IsKubernetesResourceAlreadyExistError (err : error) : bool :=
  match err with
  | Some ErrAlreadyExists => true
  | _ => false
  end.

End k8sutil.

(** ** Kubernetes API objects (the fields objects.go populates) *)

Module v1.

Definition PullAlways : string := "Always".
Definition ProtocolTCP : string := "TCP".
Definition ResourceCPU : string := "cpu".
Definition ResourceMemory : string := "memory".
Definition SecretTypeOpaque : string := "Opaque".
Definition ServiceTypeClusterIP : string := "ClusterIP".

End v1.

Record ObjectMeta : Type := {
  Name : string;
  Labels : gmap string string;
  Annotations : gmap string string
}.

Record ObjectFieldSelector : Type := {
  APIVersion : string;
  FieldPath : string
}.

Record LocalObjectReference : Type := { RefName : string }.

Record SecretKeySelector : Type := {
  SecretRef : LocalObjectReference;
  Key : string
}.

(** [v1.EnvVarSource]: both members are pointers, [nil] when unset. *)
Record EnvVarSource : Type := {
  FieldRef : option ObjectFieldSelector;
  SecretKeyRef : option SecretKeySelector
}.

Record EnvVar : Type := {
  EnvName : string;
  Value : string;
  ValueFrom : option EnvVarSource
}.

Record ContainerPort : Type := {
  ContainerPortNumber : Z;
  Protocol : string
}.

Record VolumeMount : Type := {
  MountName : string;
  MountPath : string
}.

(** [v1.VolumeSource{EmptyDir: &v1.EmptyDirVolumeSource{}}]. *)
Inductive VolumeSource : Type :=
| EmptyDir.

Record Volume : Type := {
  VolumeName : string;
  Source : VolumeSource
}.

Inductive IntOrStringType : Type := IntKind | StringKind.

Record IntOrString : Type := {
  IntStrType : IntOrStringType;
  IntVal : Z;
  StrVal : string
}.

Record ServicePort : Type := {
  Port : Z;
  TargetPort : IntOrString
}.

Record ServiceSpec : Type := {
  ServiceType : string;
  ServicePorts : list ServicePort
}.

Record Service : Type := {
  ServiceMeta : ObjectMeta;
  ServiceSpecOf : ServiceSpec
}.

Record Endpoints : Type := { EndpointsMeta : ObjectMeta }.

Record Secret : Type := {
  SecretMeta : ObjectMeta;
  SecretType : string;
  Data : gmap string (list byte)
}.

Section Objects.
Context `{QP : QuantityParser}.


Record ResourceRequirements : Type := {
  Requests : gmap string Quantity
}.

Record Container : Type := {
  ContainerName : string;
  Image : string;
  ImagePullPolicy : string;
  Resources : ResourceRequirements;
  Ports : list ContainerPort;
  VolumeMounts : list VolumeMount;
  Env : list EnvVar
}.

Record PodSpec : Type := {
  TerminationGracePeriodSeconds : option Z;
  Volumes : list Volume;
  Containers : list Container
}.

Record PodTemplateSpec : Type := {
  TemplateMeta : ObjectMeta;
  TemplateSpec : PodSpec
}.

Record StatefulSetSpec : Type := {
  Replicas : option Z;
  ServiceName : string;
  Template : PodTemplateSpec
}.

Record StatefulSet : Type := {
  StatefulSetMeta : ObjectMeta;
  StatefulSetSpecOf : StatefulSetSpec
}.

End Objects.

(** ** The cluster as objects.go reads it *)

Record Resources_t : Type := {
  Cpu : string;
  Memory : string
}.

Record PostgresSpec : Type := {
  SpecResources : Resources_t;
  NumberOfInstances : Z
}.

(** [spec.Postgresql], reached through the pointer [c.cluster]. *)
Record Postgresql : Type := {
  Metadata : ObjectMeta;
  Spec : PostgresSpec
}.

Record Config : Type := { Namespace : string }.

Record pgUser : Type := {
  username : list byte;
  password : list byte
}.

(** The receiver [c *Cluster]; [c.config.KubeClient] and [c.logger] are the
    effects of the monad below. *)
Record Cluster : Type := {
  cluster : Postgresql;
  etcdHost : string;
  dockerImage : string;
  config : Config;
  pgUsers : list pgUser
}.

(** ** Client requests, log records and the reconcile monad *)

Section Effects.
Context `{QP : QuantityParser}.

(** One constructor per client method objects.go calls, e.g.
    [KubeClient.Secrets(ns).Update(&secret)]. *)
Inductive Request : Type :=
| StatefulSetsCreate (ns : string) (o : StatefulSet)
| SecretsCreate (ns : string) (o : Secret)
| SecretsUpdate (ns : string) (o : Secret)
| ServicesGet (ns : string) (name : string)
| ServicesCreate (ns : string) (o : Service)
| EndpointsGet (ns : string) (name : string)
| EndpointsCreate (ns : string) (o : Endpoints).

(** Create and update calls change the platform, get calls do not. *)
Definition mutating (r : Request) : bool :=
  match r with
  | ServicesGet _ _ | EndpointsGet _ _ => false
  | _ => true
  end.

(** The orchestration platform behind [c.config.KubeClient]: any
    deterministic state machine answering requests with an [error]. *)
Class KubeClient : Type := {
  KState : Type;
  kube : Request -> KState -> error * KState
}.

Inductive Level : Type := InfoLevel | ErrorLevel.

(** The operands handed to [Infof]/[Errorf] for the [%s] and [%+v] verbs. *)
Inductive LogArg : Type :=
| ArgString (s : string)
| ArgError (e : error)
| ArgSecret (o : Secret)
| ArgService (o : Service)
| ArgEndpoints (o : Endpoints).

Record LogEntry : Type := {
  level : Level;
  format : string;
  args : list LogArg
}.

(** The value [resource.MustParse] panics with:
    [fmt.Errorf("cannot parse '%v': %v", str, err)]. *)
Record PanicValue : Type := {
  offending : string;
  cause : ParseError
}.

Context `{KC : KubeClient}.

(** What an operation can observe and change: the platform, the requests
    issued so far with their answers (oldest first), and the logger's
    output. *)
Record World : Type := {
  platform : KState;
  calls : list (Request * error);
  logged : list LogEntry
}.

Inductive Outcome (A : Type) : Type :=
| Done (a : A)
| Panicked (p : PanicValue).
Arguments Done {A} a.
Arguments Panicked {A} p.

Definition M (A : Type) : Type := World -> Outcome A * World.

Definition ret {A} (a : A) : M A := fun w => (Done a, w).

Definition bind {A B} (m : M A) (k : A -> M B) : M B :=
  fun w =>
    match m w with
    | (Done a, w') => k a w'
    | (Panicked p, w') => (Panicked p, w')
    end.

Definition panic {A} (p : PanicValue) : M A := fun w => (Panicked p, w).

#[local] Instance M_ret : MRet M := @ret.
#[local] Instance M_bind : MBind M := fun A B k m => bind m k.

(** A synchronous client call: the platform answers and moves on. *)
Definition call (r : Request) : M error :=
  fun w =>
    let '(err, p') := kube r (platform w) in
    (Done err,
     {| platform := p'; calls := calls w ++ [(r, err)]; logged := logged w |}).

Definition logf (l : Level) (fmt : string) (a : list LogArg) : M unit :=
  fun w =>
    (Done tt,
     {| platform := platform w; calls := calls w;
        logged := logged w ++ [{| level := l; format := fmt; args := a |}] |}).

Definition Infof : string -> list LogArg -> M unit := logf InfoLevel.
Definition Errorf : string -> list LogArg -> M unit := logf ErrorLevel.

(** [resource.MustParse]. *)
Definition MustParse (str : string) : M Quantity :=
  match ParseQuantity str with
  | Ok q => ret q
  | Err err => panic {| offending := str; cause := err |}
  end.

(** [for _, x := range l { body }]. *)
Fixpoint forRange {A} (l : list A) (body : A -> M unit) : M unit :=
  match l with
  | [] => ret tt
  | x :: l' => body x;; forRange l' body
  end.

Context `{CN : ClusterNaming}.

(** Modelled from the spec: [c.credentialSecretName(userName)], a function of
    the cluster name and the role. *)
Definition credentialSecretName (c : Cluster) (userName : string) : string :=
  secretName (Name (Metadata (cluster c))) userName.

(** Modelled from the spec: [c.labels()], derived from the cluster identity. *)
Definition labels (c : Cluster) : gmap string string :=
  ownershipLabels (Name (Metadata (cluster c))).

(** ** createStatefulSet *)

Definition envVars (c : Cluster) : list EnvVar :=
  let clusterName := Name (Metadata (cluster c)) in
  [ {| EnvName := "SCOPE"; Value := clusterName; ValueFrom := None |};
    {| EnvName := "PGROOT"; Value := "/home/postgres/pgdata/pgroot";
       ValueFrom := None |};
    {| EnvName := "ETCD_HOST"; Value := etcdHost c; ValueFrom := None |};
    {| EnvName := "POD_IP"; Value := "";
       ValueFrom := Some {|
         FieldRef := Some {| APIVersion := "v1"; FieldPath := "status.podIP" |};
         SecretKeyRef := None |} |};
    {| EnvName := "POD_NAMESPACE"; Value := "";
       ValueFrom := Some {|
         FieldRef := Some {| APIVersion := "v1";
                             FieldPath := "metadata.namespace" |};
         SecretKeyRef := None |} |};
    {| EnvName := "PGPASSWORD_SUPERUSER"; Value := "";
       ValueFrom := Some {|
         FieldRef := None;
         SecretKeyRef := Some {|
           SecretRef := {| RefName := credentialSecretName c "superuser" |};
           Key := "password" |} |} |};
    {| EnvName := "PGPASSWORD_STANDBY"; Value := "";
       ValueFrom := Some {|
         FieldRef := None;
         SecretKeyRef := Some {|
           SecretRef := {| RefName := credentialSecretName c "replication" |};
           Key := "password" |} |} |} ].

(** Lines 70-78: the request map starts empty and gains an entry per
    non-empty resource string. *)
Definition resourceList (c : Cluster) : M (gmap string Quantity) :=
  let resourceList : gmap string Quantity := ∅ in
  resourceList ←
    (let cpu := Cpu (SpecResources (Spec (cluster c))) in
     if negb (String.eqb cpu "")
     then q ← MustParse cpu; ret (<[v1.ResourceCPU := q]> resourceList)
     else ret resourceList);
  resourceList ←
    (let memory := Memory (SpecResources (Spec (cluster c))) in
     if negb (String.eqb memory "")
     then q ← MustParse memory; ret (<[v1.ResourceMemory := q]> resourceList)
     else ret resourceList);
  ret resourceList.

Definition container (c : Cluster) (resourceList : gmap string Quantity)
  : Container :=
  let clusterName := Name (Metadata (cluster c)) in
  {| ContainerName := clusterName;
     Image := dockerImage c;
     ImagePullPolicy := v1.PullAlways;
     Resources := {| Requests := resourceList |};
     Ports := [ {| ContainerPortNumber := 8008; Protocol := v1.ProtocolTCP |};
                {| ContainerPortNumber := 5432; Protocol := v1.ProtocolTCP |} ];
     VolumeMounts := [ {| MountName := "pgdata";
                          MountPath := "/home/postgres/pgdata" |} ];
     Env := envVars c |}.

Definition podSpec (c : Cluster) (resourceList : gmap string Quantity)
  : PodSpec :=
  let terminateGracePeriodSeconds := 30 in
  {| TerminationGracePeriodSeconds := Some terminateGracePeriodSeconds;
     Volumes := [ {| VolumeName := "pgdata"; Source := EmptyDir |} ];
     Containers := [ container c resourceList ] |}.

Definition template (c : Cluster) (resourceList : gmap string Quantity)
  : PodTemplateSpec :=
  {| TemplateMeta := {|
       Name := "";
       Labels := labels c;
       Annotations := {[ "pod.alpha.kubernetes.io/initialized" := "true" ]} |};
     TemplateSpec := podSpec c resourceList |}.

Definition statefulSet (c : Cluster) (resourceList : gmap string Quantity)
  : StatefulSet :=
  let clusterName := Name (Metadata (cluster c)) in
  {| StatefulSetMeta := {|
       Name := clusterName; Labels := labels c; Annotations := ∅ |};
     StatefulSetSpecOf := {|
       Replicas := Some (NumberOfInstances (Spec (cluster c)));
       ServiceName := clusterName;
       Template := template c resourceList |} |}.

Definition createStatefulSet (c : Cluster) : M unit :=
  resourceList ← resourceList c;
  call (StatefulSetsCreate (Namespace (config c)) (statefulSet c resourceList));;
  ret tt.

(** ** applySecrets *)

Definition secretOf (c : Cluster) (user : pgUser) : Secret :=
  {| SecretMeta := {|
       Name := credentialSecretName c (string_of_list_byte (username user));
       Labels := labels c;
       Annotations := ∅ |};
     SecretType := v1.SecretTypeOpaque;
     Data := <["password" := password user]>
               (<["username" := username user]> ∅) |}.

Definition applySecrets (c : Cluster) : M unit :=
  forRange (pgUsers c) (fun user =>
    let secret := secretOf c user in
    err ← call (SecretsCreate (Namespace (config c)) secret);
    if k8sutil.IsKubernetesResourceAlreadyExistError err then
      err ← call (SecretsUpdate (Namespace (config c)) secret);
      match err with
      | Some _ => Errorf "Error while updating secret: %+v" [ArgError err]
      | None => Infof "Secret updated: %+v" [ArgSecret secret]
      end
    else
      match err with
      | Some _ => Errorf "Error while creating secret: %+v" [ArgError err]
      | None => Infof "Secret created: %+v" [ArgSecret secret]
      end).

(** ** createService and createEndPoint *)

Definition service (c : Cluster) : Service :=
  let clusterName := Name (Metadata (cluster c)) in
  {| ServiceMeta := {|
       Name := clusterName; Labels := labels c; Annotations := ∅ |};
     ServiceSpecOf := {|
       ServiceType := v1.ServiceTypeClusterIP;
       ServicePorts := [ {| Port := 5432;
                            TargetPort := {| IntStrType := IntKind;
                                             IntVal := 5432;
                                             StrVal := "" |} |} ] |} |}.

Definition createService (c : Cluster) : M unit :=
  let clusterName := Name (Metadata (cluster c)) in
  err ← call (ServicesGet (Namespace (config c)) clusterName);
  if negb (k8sutil.ResourceNotFound err) then
    Infof "Service '%s' already exists" [ArgString clusterName]
  else
    let service := service c in
    err ← call (ServicesCreate (Namespace (config c)) service);
    match err with
    | Some _ => Errorf "Error while creating service: %+v" [ArgError err]
    | None => Infof "Service created: %+v" [ArgService service]
    end.

Definition endPoint (c : Cluster) : Endpoints :=
  let clusterName := Name (Metadata (cluster c)) in
  {| EndpointsMeta := {|
       Name := clusterName; Labels := labels c; Annotations := ∅ |} |}.

Definition createEndPoint (c : Cluster) : M unit :=
  let clusterName := Name (Metadata (cluster c)) in
  err ← call (EndpointsGet (Namespace (config c)) clusterName);
  if negb (k8sutil.ResourceNotFound err) then
    Infof "Endpoint '%s' already exists" [ArgString clusterName]
  else
    let endPoint := endPoint c in
    err ← call (EndpointsCreate (Namespace (config c)) endPoint);
    match err with
    | Some _ => Errorf "Error while creating endpoint: %+v" [ArgError err]
    | None => Infof "Endpoint created: %+v" [ArgEndpoints endPoint]
    end.

End Effects.

Arguments Done {QP A} a.
Arguments Panicked {QP A} p.

(** ** Observing a run *)

Section Observations.
Context `{QP : QuantityParser} `{KC : !KubeClient} `{CN : ClusterNaming}.

Definition clusterName (c : Cluster) : string := Name (Metadata (cluster c)).

Definition exec {A} (m : M A) (w : World) : World := snd (m w).

(** The requests an operation issued, with the platform's answers, and the
    records it handed to the logger. *)
Definition issued {A} (m : M A) (w : World) : list (Request * error) :=
  drop (length (calls w)) (calls (exec m w)).

Definition reported {A} (m : M A) (w : World) : list LogEntry :=
  drop (length (logged w)) (logged (exec m w)).

(** The data model's well-formedness: a resource string is absent (empty) or
    a parseable quantity. *)
Definition parses (s : string) : bool :=
  match ParseQuantity s with
  | Ok _ => true
  | Err _ => false
  end.

Definition wellFormed (c : Cluster) : bool :=
  (String.eqb (Cpu (SpecResources (Spec (cluster c)))) "" ||
   parses (Cpu (SpecResources (Spec (cluster c))))) &&
  (String.eqb (Memory (SpecResources (Spec (cluster c)))) "" ||
   parses (Memory (SpecResources (Spec (cluster c))))).

(** The request map of lines 70-78 as a function of the two resource strings:
    [parsed] is what a string contributes, [requestsOf] the resulting map. *)
Definition parsed (s : string) : option Quantity :=
  if String.eqb s "" then None
  else match ParseQuantity s with Ok q => Some q | Err _ => None end.

Definition requestsOf (cpu memory : option Quantity) : gmap string Quantity :=
  let rl : gmap string Quantity := ∅ in
  let rl :=
    match cpu with Some q => <[v1.ResourceCPU := q]> rl | None => rl end in
  match memory with Some q => <[v1.ResourceMemory := q]> rl | None => rl end.

(** The label sets carried by the object inside a request. *)
Definition requestLabels (r : Request) : list (gmap string string) :=
  match r with
  | StatefulSetsCreate _ o =>
      [Labels (StatefulSetMeta o);
       Labels (TemplateMeta (Template (StatefulSetSpecOf o)))]
  | SecretsCreate _ o | SecretsUpdate _ o => [Labels (SecretMeta o)]
  | ServicesCreate _ o => [Labels (ServiceMeta o)]
  | EndpointsCreate _ o => [Labels (EndpointsMeta o)]
  | ServicesGet _ _ | EndpointsGet _ _ => []
  end.

(** The same cluster with another set of credentials. *)
Definition withUsers (c : Cluster) (us : list pgUser) : Cluster :=
  {| cluster := cluster c; etcdHost := etcdHost c;
     dockerImage := dockerImage c; config := config c; pgUsers := us |}.

(** The record [applySecrets] logs after a create that was not answered
    "already exists", and after the update that follows one that was. *)
Definition createRecord (c : Cluster) (u : pgUser) (e : error) : LogEntry :=
  match e with
  | Some _ =>
      {| level := ErrorLevel; format := "Error while creating secret: %+v";
         args := [ArgError e] |}
  | None =>
      {| level := InfoLevel; format := "Secret created: %+v";
         args := [ArgSecret (secretOf c u)] |}
  end.

Definition updateRecord (c : Cluster) (u : pgUser) (e : error) : LogEntry :=
  match e with
  | Some _ =>
      {| level := ErrorLevel; format := "Error while updating secret: %+v";
         args := [ArgError e] |}
  | None =>
      {| level := InfoLevel; format := "Secret updated: %+v";
         args := [ArgSecret (secretOf c u)] |}
  end.

(** What the credential loop may do for a list of users: one create per
    user, followed by an update of the same secret exactly when the create
    was answered "already exists", and one log record per user. *)
Inductive SecretTrace (c : Cluster)
  : list pgUser -> list (Request * error) -> list LogEntry -> Prop :=
| SecretTrace_nil : SecretTrace c [] [] []
| SecretTrace_create (u : pgUser) us (e : error) tr lg :
    k8sutil.IsKubernetesResourceAlreadyExistError e = false ->
    SecretTrace c us tr lg ->
    SecretTrace c (u :: us)
      ((SecretsCreate (Namespace (config c)) (secretOf c u), e) :: tr)
      (createRecord c u e :: lg)
| SecretTrace_update (u : pgUser) us (e : error) tr lg :
    SecretTrace c us tr lg ->
    SecretTrace c (u :: us)
      ((SecretsCreate (Namespace (config c)) (secretOf c u),
        Some ErrAlreadyExists)
       :: (SecretsUpdate (Namespace (config c)) (secretOf c u), e) :: tr)
      (updateRecord c u e :: lg).

(** The secrets handed to [Secrets(ns).Create], oldest first. *)
Definition createdSecrets (tr : list (Request * error)) : list Secret :=
  flat_map (fun r => match fst r with
                     | SecretsCreate _ o => [o]
                     | _ => []
                     end) tr.


(** The secret an environment variable of the given name refers to. *)
Definition secretRefOf (env : list EnvVar) (name : string) : option string :=
  e ← List.find (fun e => String.eqb (EnvName e) name) env;
  src ← ValueFrom e;
  sel ← SecretKeyRef src;
  Some (RefName (SecretRef sel)).

(** Every object in the trace carries the ownership labels of [c]. *)
Definition labelled (c : Cluster) (tr : list (Request * error)) : Prop :=
  Forall (fun r => Forall (fun l => l = ownershipLabels (clusterName c))
                          (requestLabels (fst r))) tr.

(** The namespace a request is addressed to. *)
Definition requestNamespace (r : Request) : string :=
  match r with
  | StatefulSetsCreate ns _ | SecretsCreate ns _ | SecretsUpdate ns _
  | ServicesGet ns _ | ServicesCreate ns _
  | EndpointsGet ns _ | EndpointsCreate ns _ => ns
  end.

(** Requests on the secrets resource. *)
Definition onSecrets (r : Request) : bool :=
  match r with
  | SecretsCreate _ _ | SecretsUpdate _ _ => true
  | _ => false
  end.

(** A request that was answered with an error. *)
Definition failed (r : Request * error) : bool :=
  match snd r with
  | Some _ => true
  | None => false
  end.

(** The key under which the platform files the secret of a user. *)
Definition secretKey (c : Cluster) (u : pgUser) : string * string :=
  (Namespace (config c), Name (SecretMeta (secretOf c u))).

(** Writing the secrets of a list of users into a store of secrets, in
    order, whether or not a secret of that key is already there. *)
Definition upsertSecrets (c : Cluster) (us : list pgUser)
    (m : gmap (string * string) Secret) : gmap (string * string) Secret :=
  foldl (fun m u => <[secretKey c u := secretOf c u]> m) m us.

End Observations.

(** ** An in-memory platform

    The orchestration client's contract on a store of objects keyed by
    namespace and name, starting empty. *)

Module MemoryPlatform.
Section Store.
Context `{QP : QuantityParser}.

Record Store : Type := {
  statefulSets : gmap (string * string) StatefulSet;
  secrets : gmap (string * string) Secret;
  services : gmap (string * string) Service;
  endpoints : gmap (string * string) Endpoints
}.

Definition emptyStore : Store :=
  {| statefulSets := ∅; secrets := ∅; services := ∅; endpoints := ∅ |}.

Definition found {A} (m : gmap (string * string) A) (k : string * string)
  : error :=
  match m !! k with
  | Some _ => None
  | None => Some ErrNotFound
  end.

(** Get answers "not found" for a missing key, create answers "already
    exists" for a present one and stores the object otherwise, update
    replaces a present object. *)
Definition serve (r : Request) (s : Store) : error * Store :=
  match r with
  | StatefulSetsCreate ns o =>
      let k := (ns, Name (StatefulSetMeta o)) in
      match statefulSets s !! k with
      | Some _ => (Some ErrAlreadyExists, s)
      | None =>
          (None, {| statefulSets := <[k := o]> (statefulSets s);
                    secrets := secrets s; services := services s;
                    endpoints := endpoints s |})
      end
  | SecretsCreate ns o =>
      let k := (ns, Name (SecretMeta o)) in
      match secrets s !! k with
      | Some _ => (Some ErrAlreadyExists, s)
      | None =>
          (None, {| statefulSets := statefulSets s;
                    secrets := <[k := o]> (secrets s);
                    services := services s; endpoints := endpoints s |})
      end
  | SecretsUpdate ns o =>
      let k := (ns, Name (SecretMeta o)) in
      match secrets s !! k with
      | Some _ =>
          (None, {| statefulSets := statefulSets s;
                    secrets := <[k := o]> (secrets s);
                    services := services s; endpoints := endpoints s |})
      | None => (Some ErrNotFound, s)
      end
  | ServicesGet ns name => (found (services s) (ns, name), s)
  | ServicesCreate ns o =>
      let k := (ns, Name (ServiceMeta o)) in
      match services s !! k with
      | Some _ => (Some ErrAlreadyExists, s)
      | None =>
          (None, {| statefulSets := statefulSets s; secrets := secrets s;
                    services := <[k := o]> (services s);
                    endpoints := endpoints s |})
      end
  | EndpointsGet ns name => (found (endpoints s) (ns, name), s)
  | EndpointsCreate ns o =>
      let k := (ns, Name (EndpointsMeta o)) in
      match endpoints s !! k with
      | Some _ => (Some ErrAlreadyExists, s)
      | None =>
          (None, {| statefulSets := statefulSets s; secrets := secrets s;
                    services := services s;
                    endpoints := <[k := o]> (endpoints s) |})
      end
  end.

Definition memory : KubeClient :=
  {| KState := Store; kube := serve |}.

Definition emptyWorld : @World QP memory :=
  @Build_World QP memory emptyStore [] [].

(** A platform with outages: while it is up every request succeeds (a get
    finds the object), while it is down every request fails with the same
    error, which is neither "not found" nor "already exists". *)
Definition intermittent (msg : string) : KubeClient :=
  {| KState := bool;
     kube := fun _ up => (if up then None else Some (ErrOther msg), up) |}.

End Store.
End MemoryPlatform.

(** ** Concrete collaborators

    A quantity grammar, a naming scheme and a cluster, used to run the
    operations on concrete inputs. *)

Module Fixtures.

Inductive QuantityError : Type := ErrFormatWrong | ErrSuffix.

Record Amount : Type := {
  number : N;
  suffix : string
}.

Definition digitOf (a : ascii) : option N :=
  let n := N_of_ascii a in
  if ((48 <=? n) && (n <=? 57))%N then Some (n - 48)%N else None.

(** Consume the leading decimal digits of [s]. *)
Fixpoint digits (s : string) (acc : N) : N * string :=
  match s with
  | EmptyString => (acc, EmptyString)
  | String a s' =>
      match digitOf a with
      | Some d => digits s' (10 * acc + d)%N
      | None => (acc, s)
      end
  end.

Definition suffixes : list string :=
  [""; "Ki"; "Mi"; "Gi"; "Ti"; "Pi"; "Ei";
   "n"; "u"; "m"; "k"; "M"; "G"; "T"; "P"; "E"].

(** Unsigned decimal digits followed by one of the binary or decimal SI
    suffixes. *)
Definition parse (s : string) : result QuantityError Amount :=
  match s with
  | EmptyString => Err ErrFormatWrong
  | String a _ =>
      match digitOf a with
      | None => Err ErrFormatWrong
      | Some _ =>
          let '(n, rest) := digits s 0%N in
          if existsb (String.eqb rest) suffixes
          then Ok {| number := n; suffix := rest |}
          else Err ErrSuffix
      end
  end.

Definition quantities : QuantityParser :=
  {| Quantity := Amount; ParseError := QuantityError; ParseQuantity := parse |}.

Definition naming : ClusterNaming :=
  {| secretName := fun clusterName userName =>
       (userName ++ "." ++ clusterName ++ ".credentials")%string;
     ownershipLabels := fun clusterName =>
       <["spilo-cluster" := clusterName]> {[ "application" := "spilo" ]} |}.

Definition acidTest (cpu memory : string) (users : list pgUser) : Cluster :=
  {| cluster := {|
       Metadata := {| Name := "acid-test"; Labels := ∅; Annotations := ∅ |};
       Spec := {| SpecResources := {| Cpu := cpu; Memory := memory |};
                  NumberOfInstances := 2 |} |};
     etcdHost := "etcd.default.svc";
     dockerImage := "example/pg:1";
     config := {| Namespace := "default" |};
     pgUsers := users |}.

Definition superuser : pgUser :=
  {| username := list_byte_of_string "superuser";
     password := list_byte_of_string "s3cret" |}.

Definition replication : pgUser :=
  {| username := list_byte_of_string "replication";
     password := list_byte_of_string "hunter2" |}.

Definition emptyWorld : @World quantities (@MemoryPlatform.memory quantities) :=
  MemoryPlatform.emptyWorld.

End Fixtures.

(** ** Properties of the operations *)

Section Properties.
Context `{QP : QuantityParser} `{KC : !KubeClient} `{CN : ClusterNaming}.

Ltac unfold_m :=
  unfold mbind, M_bind, bind, mret, M_ret, ret, panic,
         Infof, Errorf, logf in *.

Lemma MustParse_Ok (s : string) (q : Quantity) (w : World) :
  ParseQuantity s = Ok q -> MustParse s w = (Done q, w).
Proof. intros H. unfold MustParse. rewrite H. reflexivity. Qed.

Lemma MustParse_Err (s : string) (e : ParseError) (w : World) :
  ParseQuantity s = Err e ->
  MustParse s w = (Panicked {| offending := s; cause := e |}, w).
Proof. intros H. unfold MustParse. rewrite H. reflexivity. Qed.

Lemma parses_Ok (s : string) :
  parses s = true -> exists q, ParseQuantity s = Ok q.
Proof.
  unfold parses. destruct (ParseQuantity s) as [q|e]; [eauto | discriminate].
Qed.

Lemma call_run (r : Request) (w : World) :
  call r w =
    (Done (fst (kube r (platform w))),
     {| platform := snd (kube r (platform w));
        calls := calls w ++ [(r, fst (kube r (platform w)))];
        logged := logged w |}).
Proof. unfold call. destruct (kube r (platform w)); reflexivity. Qed.

Lemma issued_app {A} (m : M A) (w : World) (tr : list (Request * error)) :
  calls (exec m w) = calls w ++ tr -> issued m w = tr.
Proof. intros H. unfold issued. rewrite H. apply drop_app_length. Qed.

Lemma reported_app {A} (m : M A) (w : World) (l : list LogEntry) :
  logged (exec m w) = logged w ++ l -> reported m w = l.
Proof. intros H. unfold reported. rewrite H. apply drop_app_length. Qed.

Lemma resourceList_wellFormed (c : Cluster) (w : World) :
  wellFormed c = true ->
  resourceList c w =
    (Done (requestsOf (parsed (Cpu (SpecResources (Spec (cluster c)))))
                      (parsed (Memory (SpecResources (Spec (cluster c)))))),
     w).
Proof.
  unfold wellFormed, resourceList, parsed, requestsOf.
  intros [Hc Hm]%andb_prop.
  apply orb_prop in Hc, Hm. unfold_m.
  destruct (String.eqb (Cpu _) "") eqn:Ec; simpl.
  - destruct (String.eqb (Memory _) "") eqn:Em; simpl; [reflexivity|].
    destruct Hm as [Hm|Hm]; [discriminate|].
    apply parses_Ok in Hm as [q Hq]. rewrite (MustParse_Ok _ q), Hq by done.
    reflexivity.
  - destruct Hc as [Hc|Hc]; [discriminate|].
    apply parses_Ok in Hc as [qc Hqc].
    rewrite (MustParse_Ok _ qc), Hqc by done.
    destruct (String.eqb (Memory _) "") eqn:Em; simpl; [reflexivity|].
    destruct Hm as [Hm|Hm]; [discriminate|].
    apply parses_Ok in Hm as [q Hq]. rewrite (MustParse_Ok _ q), Hq by done.
    reflexivity.
Qed.

Lemma createStatefulSet_wellFormed (c : Cluster) (w : World) :
  wellFormed c = true ->
  exists rl,
    resourceList c w = (Done rl, w) /\
    let r := StatefulSetsCreate (Namespace (config c)) (statefulSet c rl) in
    createStatefulSet c w =
      (Done tt,
       {| platform := snd (kube r (platform w));
          calls := calls w ++ [(r, fst (kube r (platform w)))];
          logged := logged w |}).
Proof.
  intros Hwf. eexists. split; [apply resourceList_wellFormed, Hwf|].
  simpl. unfold createStatefulSet. unfold_m.
  rewrite resourceList_wellFormed by done. rewrite call_run. reflexivity.
Qed.

(** C1 (as amended): a non-empty resource string that the quantity parser
    rejects makes [createStatefulSet] panic, through [resource.MustParse],
    with a value that carries the rejected string and the parser's error.
    The CPU string is examined first, the memory string only when the CPU
    string is empty or parses.  The panic leaves the world untouched: no
    request reaches the platform, so no container or workload object is
    produced, and nothing is logged. *)
Theorem createStatefulSet_malformed_quantity
    (c : Cluster) (w : World) (s : string) (e : ParseError) :
  s <> "" ->
  ParseQuantity s = Err e ->
  Cpu (SpecResources (Spec (cluster c))) = s \/
  ((Cpu (SpecResources (Spec (cluster c))) = "" \/
    parses (Cpu (SpecResources (Spec (cluster c)))) = true) /\
   Memory (SpecResources (Spec (cluster c))) = s) ->
  createStatefulSet c w = (Panicked {| offending := s; cause := e |}, w).
Proof.
  intros Hs He Hwhere. apply String.eqb_neq in Hs.
  unfold createStatefulSet, resourceList. unfold_m.
  destruct Hwhere as [Hcpu | [Hcpu Hmem]].
  - rewrite Hcpu, Hs. simpl. rewrite (MustParse_Err _ e) by done. reflexivity.
  - rewrite Hmem, Hs. simpl.
    destruct Hcpu as [Hcpu | Hcpu].
    + rewrite Hcpu. simpl. rewrite (MustParse_Err _ e) by done. reflexivity.
    + apply parses_Ok in Hcpu as [q Hq].
      destruct (String.eqb (Cpu _) ""); simpl.
      * rewrite (MustParse_Err _ e) by done. reflexivity.
      * rewrite (MustParse_Ok _ q) by done.
        rewrite (MustParse_Err _ e) by done. reflexivity.
Qed.

(** C6 (as amended): for every spec whose CPU and memory strings are each
    empty or accepted by the quantity parser, [createStatefulSet] issues
    exactly one request, the create of the synthesized workload set.  No
    get precedes it, and the platform's answer is dropped: whatever it is
    ("already exists" included) the operation returns normally and logs
    nothing. *)
Theorem createStatefulSet_single_create (c : Cluster) (w : World) :
  wellFormed c = true ->
  exists (rl : gmap string Quantity) (e : error),
    issued (createStatefulSet c) w =
      [(StatefulSetsCreate (Namespace (config c)) (statefulSet c rl), e)] /\
    fst (createStatefulSet c w) = Done tt /\
    logged (exec (createStatefulSet c) w) = logged w.
Proof.
  intros Hwf.
  destruct (createStatefulSet_wellFormed c w Hwf) as (rl & _ & Hrun).
  simpl in Hrun. exists rl. eexists. split; [|split].
  - apply issued_app. unfold exec. rewrite Hrun. reflexivity.
  - rewrite Hrun. reflexivity.
  - unfold exec. rewrite Hrun. reflexivity.
Qed.

Lemma requestsOf_cpu (a b : option Quantity) :
  requestsOf a b !! v1.ResourceCPU = a.
Proof.
  unfold requestsOf. destruct a, b; simpl;
    repeat (rewrite lookup_insert_ne by done);
    rewrite ?lookup_insert_eq, ?lookup_empty; reflexivity.
Qed.

Lemma requestsOf_memory (a b : option Quantity) :
  requestsOf a b !! v1.ResourceMemory = b.
Proof.
  unfold requestsOf. destruct a, b; simpl;
    rewrite ?lookup_insert_eq; try reflexivity;
    repeat (rewrite lookup_insert_ne by done);
    rewrite ?lookup_empty; reflexivity.
Qed.

Lemma requestsOf_other (a b : option Quantity) (k : string) :
  is_Some (requestsOf a b !! k) ->
  k = v1.ResourceCPU \/ k = v1.ResourceMemory.
Proof.
  unfold requestsOf. intros [q Hq].
  destruct (decide (k = v1.ResourceCPU)) as [|Hc]; [by left|].
  destruct (decide (k = v1.ResourceMemory)) as [|Hm]; [by right|].
  exfalso. destruct a, b; simpl in Hq;
    repeat (rewrite lookup_insert_ne in Hq by done);
    rewrite lookup_empty in Hq; discriminate.
Qed.

Lemma parsed_is_Some (s : string) :
  String.eqb s "" || parses s = true ->
  (is_Some (parsed s) <-> s <> "").
Proof.
  unfold parsed, parses. intros H.
  destruct (String.eqb s "") eqn:E.
  - apply String.eqb_eq in E. split; [intros [? ?]; discriminate | done].
  - apply String.eqb_neq in E. simpl in H.
    destruct (ParseQuantity s); [|discriminate]. split; eauto.
Qed.

Lemma parsed_Some (s : string) (q : Quantity) :
  parsed s = Some q -> ParseQuantity s = Ok q.
Proof.
  unfold parsed. destruct (String.eqb s ""); [discriminate|].
  destruct (ParseQuantity s); congruence.
Qed.

(** C7: for a well-formed spec the request map of the synthesized container
    has a CPU entry exactly when the CPU string is non-empty and a memory
    entry exactly when the memory string is non-empty; an entry holds the
    parsed quantity of its string and there are no other entries.  With an
    empty CPU string and a memory string such as "1Gi" the map is the
    single memory entry. *)
Theorem resource_requests_presence (c : Cluster) (w : World) :
  wellFormed c = true ->
  exists rl : gmap string Quantity,
    map fst (issued (createStatefulSet c) w) =
      [StatefulSetsCreate (Namespace (config c)) (statefulSet c rl)] /\
    map (fun k => Requests (Resources k))
        (Containers (TemplateSpec (Template
           (StatefulSetSpecOf (statefulSet c rl))))) = [rl] /\
    (is_Some (rl !! v1.ResourceCPU) <->
     Cpu (SpecResources (Spec (cluster c))) <> "") /\
    (is_Some (rl !! v1.ResourceMemory) <->
     Memory (SpecResources (Spec (cluster c))) <> "") /\
    (forall q, rl !! v1.ResourceCPU = Some q ->
       ParseQuantity (Cpu (SpecResources (Spec (cluster c)))) = Ok q) /\
    (forall q, rl !! v1.ResourceMemory = Some q ->
       ParseQuantity (Memory (SpecResources (Spec (cluster c)))) = Ok q) /\
    (forall k, is_Some (rl !! k) ->
       k = v1.ResourceCPU \/ k = v1.ResourceMemory) /\
    (Cpu (SpecResources (Spec (cluster c))) = "" ->
     Memory (SpecResources (Spec (cluster c))) <> "" ->
     exists q,
       ParseQuantity (Memory (SpecResources (Spec (cluster c)))) = Ok q /\
       rl = {[ v1.ResourceMemory := q ]}).
Proof.
  intros Hwf.
  destruct (createStatefulSet_wellFormed c w Hwf) as (rl & Hrl & Hrun).
  rewrite resourceList_wellFormed in Hrl by done.
  injection Hrl as Hrl. simpl in Hrun.
  pose proof Hwf as [Hc Hm]%andb_prop.
  exists rl. repeat split.
  - erewrite issued_app; [|unfold exec; rewrite Hrun; reflexivity].
    reflexivity.
  - subst rl. rewrite requestsOf_cpu. by apply parsed_is_Some.
  - subst rl. rewrite requestsOf_cpu. by apply parsed_is_Some.
  - subst rl. rewrite requestsOf_memory. by apply parsed_is_Some.
  - subst rl. rewrite requestsOf_memory. by apply parsed_is_Some.
  - intros q. subst rl. rewrite requestsOf_cpu. apply parsed_Some.
  - intros q. subst rl. rewrite requestsOf_memory. apply parsed_Some.
  - intros k. subst rl. apply requestsOf_other.
  - intros Hcpu Hmem.
    destruct (proj2 (parsed_is_Some _ Hm) Hmem) as [q Hq].
    exists q. split; [by apply parsed_Some|].
    subst rl. rewrite Hq. unfold parsed at 1. rewrite Hcpu. reflexivity.
Qed.

Lemma statefulSet_withUsers (c : Cluster) (us : list pgUser)
    (rl : gmap string Quantity) :
  statefulSet (withUsers c us) rl = statefulSet c rl.
Proof. reflexivity. Qed.

Lemma wellFormed_withUsers (c : Cluster) (us : list pgUser) :
  wellFormed (withUsers c us) = wellFormed c.
Proof. reflexivity. Qed.

(** C8: for a well-formed spec the container of the synthesized workload
    set carries exactly seven environment variables: SCOPE, PGROOT and
    ETCD_HOST with inline values (cluster name, the fixed data root, the
    etcd host), POD_IP and POD_NAMESPACE as field references, and
    PGPASSWORD_SUPERUSER and PGPASSWORD_STANDBY as references to the
    "password" key of the superuser and replication credential secrets,
    with no inline value.  The workload set does not depend on the
    credentials at all. *)
Theorem workload_environment (c : Cluster) (w : World) :
  wellFormed c = true ->
  exists (rl : gmap string Quantity) (env : list EnvVar),
    map fst (issued (createStatefulSet c) w) =
      [StatefulSetsCreate (Namespace (config c)) (statefulSet c rl)] /\
    map Env (Containers (TemplateSpec (Template
      (StatefulSetSpecOf (statefulSet c rl))))) = [env] /\
    map EnvName env =
      ["SCOPE"; "PGROOT"; "ETCD_HOST"; "POD_IP"; "POD_NAMESPACE";
       "PGPASSWORD_SUPERUSER"; "PGPASSWORD_STANDBY"] /\
    map (fun e => (Value e, ValueFrom e)) (take 3 env) =
      [(clusterName c, None); ("/home/postgres/pgdata/pgroot", None);
       (etcdHost c, None)] /\
    map (fun e => (Value e, ValueFrom e)) (take 2 (drop 3 env)) =
      [("", Some {| FieldRef := Some {| APIVersion := "v1";
                                        FieldPath := "status.podIP" |};
                    SecretKeyRef := None |});
       ("", Some {| FieldRef := Some {| APIVersion := "v1";
                                        FieldPath := "metadata.namespace" |};
                    SecretKeyRef := None |})] /\
    map (fun e => (Value e, ValueFrom e)) (drop 5 env) =
      [("", Some {| FieldRef := None;
                    SecretKeyRef := Some {|
                      SecretRef := {| RefName :=
                        credentialSecretName c "superuser" |};
                      Key := "password" |} |});
       ("", Some {| FieldRef := None;
                    SecretKeyRef := Some {|
                      SecretRef := {| RefName :=
                        credentialSecretName c "replication" |};
                      Key := "password" |} |})] /\
    (forall us : list pgUser,
       map fst (issued (createStatefulSet (withUsers c us)) w) =
       map fst (issued (createStatefulSet c) w)).
Proof.
  intros Hwf.
  destruct (createStatefulSet_wellFormed c w Hwf) as (rl & _ & Hrun).
  simpl in Hrun.
  assert (Hissued : map fst (issued (createStatefulSet c) w) =
            [StatefulSetsCreate (Namespace (config c)) (statefulSet c rl)]).
  { erewrite issued_app; [|unfold exec; rewrite Hrun; reflexivity].
    reflexivity. }
  exists rl, (envVars c).
  split; [exact Hissued|]. repeat (split; [reflexivity|]).
  intros us. reflexivity.
Qed.

(** *** The get-then-create operations *)

Lemma createService_run (c : Cluster) (w : World) :
  let get := ServicesGet (Namespace (config c)) (clusterName c) in
  let create := ServicesCreate (Namespace (config c)) (service c) in
  let e := fst (kube get (platform w)) in
  let p := snd (kube get (platform w)) in
  createService c w =
    if k8sutil.ResourceNotFound e then
      let e' := fst (kube create p) in
      (Done tt,
       {| platform := snd (kube create p);
          calls := calls w ++ [(get, e); (create, e')];
          logged := logged w ++
            [match e' with
             | Some _ =>
                 {| level := ErrorLevel;
                    format := "Error while creating service: %+v";
                    args := [ArgError e'] |}
             | None =>
                 {| level := InfoLevel; format := "Service created: %+v";
                    args := [ArgService (service c)] |}
             end] |})
    else
      (Done tt,
       {| platform := p; calls := calls w ++ [(get, e)];
          logged := logged w ++
            [{| level := InfoLevel; format := "Service '%s' already exists";
                args := [ArgString (clusterName c)] |}] |}).
Proof.
  simpl. unfold createService, clusterName. unfold_m. rewrite call_run.
  destruct (k8sutil.ResourceNotFound _); simpl; [|reflexivity].
  rewrite call_run. simpl. rewrite <- app_assoc. simpl.
  destruct (fst (kube _ _)); reflexivity.
Qed.

Lemma createEndPoint_run (c : Cluster) (w : World) :
  let get := EndpointsGet (Namespace (config c)) (clusterName c) in
  let create := EndpointsCreate (Namespace (config c)) (endPoint c) in
  let e := fst (kube get (platform w)) in
  let p := snd (kube get (platform w)) in
  createEndPoint c w =
    if k8sutil.ResourceNotFound e then
      let e' := fst (kube create p) in
      (Done tt,
       {| platform := snd (kube create p);
          calls := calls w ++ [(get, e); (create, e')];
          logged := logged w ++
            [match e' with
             | Some _ =>
                 {| level := ErrorLevel;
                    format := "Error while creating endpoint: %+v";
                    args := [ArgError e'] |}
             | None =>
                 {| level := InfoLevel; format := "Endpoint created: %+v";
                    args := [ArgEndpoints (endPoint c)] |}
             end] |})
    else
      (Done tt,
       {| platform := p; calls := calls w ++ [(get, e)];
          logged := logged w ++
            [{| level := InfoLevel; format := "Endpoint '%s' already exists";
                args := [ArgString (clusterName c)] |}] |}).
Proof.
  simpl. unfold createEndPoint, clusterName. unfold_m. rewrite call_run.
  destruct (k8sutil.ResourceNotFound _); simpl; [|reflexivity].
  rewrite call_run. simpl. rewrite <- app_assoc. simpl.
  destruct (fst (kube _ _)); reflexivity.
Qed.

(** *** The credential loop *)

Lemma withUsers_self (c : Cluster) : withUsers c (pgUsers c) = c.
Proof. destruct c; reflexivity. Qed.

Lemma IsAlreadyExist_true (e : error) :
  k8sutil.IsKubernetesResourceAlreadyExistError e = true ->
  e = Some ErrAlreadyExists.
Proof. destruct e as [[| |]|]; simpl; congruence. Qed.

Lemma applySecrets_withUsers (c : Cluster) (us : list pgUser) (w : World) :
  exists (w' : World) (tr : list (Request * error)) (lg : list LogEntry),
    applySecrets (withUsers c us) w = (Done tt, w') /\
    calls w' = calls w ++ tr /\
    logged w' = logged w ++ lg /\
    SecretTrace c us tr lg.
Proof.
  revert w. induction us as [|u us IH]; intros w.
  - exists w, [], []. rewrite !app_nil_r. repeat split. constructor.
  - unfold applySecrets. simpl pgUsers. simpl forRange.
    change (forRange us _) with (applySecrets (withUsers c us)).
    change (secretOf (withUsers c (u :: us)) u) with (secretOf c u).
    change (config (withUsers c (u :: us))) with (config c).
    unfold_m. unfold call.
    destruct (kube (SecretsCreate _ _) (platform w)) as [e1 p1].
    destruct (k8sutil.IsKubernetesResourceAlreadyExistError e1) eqn:E.
    + apply IsAlreadyExist_true in E. subst e1. simpl.
      destruct (kube (SecretsUpdate _ _) p1) as [e2 p2].
      destruct e2 as [k|]; simpl;
        match goal with |- context [applySecrets _ ?w1] =>
          destruct (IH w1) as (w' & tr & lg & Hrun & Hc & Hl & Htr) end;
        simpl in Hc, Hl;
        [ exists w',
            ((SecretsCreate (Namespace (config c)) (secretOf c u),
              Some ErrAlreadyExists)
             :: (SecretsUpdate (Namespace (config c)) (secretOf c u), Some k)
             :: tr),
            (updateRecord c u (Some k) :: lg)
        | exists w',
            ((SecretsCreate (Namespace (config c)) (secretOf c u),
              Some ErrAlreadyExists)
             :: (SecretsUpdate (Namespace (config c)) (secretOf c u), None)
             :: tr),
            (updateRecord c u None :: lg) ];
        (split; [exact Hrun|]);
        rewrite Hc, Hl, <- !app_assoc; simpl;
        (repeat split); by constructor.
    + destruct e1 as [k|]; simpl;
        match goal with |- context [applySecrets _ ?w1] =>
          destruct (IH w1) as (w' & tr & lg & Hrun & Hc & Hl & Htr) end;
        simpl in Hc, Hl;
        [ exists w',
            ((SecretsCreate (Namespace (config c)) (secretOf c u), Some k)
             :: tr),
            (createRecord c u (Some k) :: lg)
        | exists w',
            ((SecretsCreate (Namespace (config c)) (secretOf c u), None)
             :: tr),
            (createRecord c u None :: lg) ];
        (split; [exact Hrun|]);
        rewrite Hc, Hl, <- !app_assoc; simpl;
        (repeat split); by constructor.
Qed.

Lemma applySecrets_run (c : Cluster) (w : World) :
  fst (applySecrets c w) = Done tt /\
  SecretTrace c (pgUsers c) (issued (applySecrets c) w)
              (reported (applySecrets c) w).
Proof.
  destruct (applySecrets_withUsers c (pgUsers c) w)
    as (w' & tr & lg & Hrun & Hc & Hl & Htr).
  rewrite withUsers_self in Hrun.
  rewrite (issued_app _ _ tr), (reported_app _ _ lg)
    by (unfold exec; rewrite Hrun; assumption).
  rewrite Hrun. split; [reflexivity | assumption].
Qed.

Lemma SecretTrace_created (c : Cluster) (us : list pgUser)
    (tr : list (Request * error)) (lg : list LogEntry) :
  SecretTrace c us tr lg -> createdSecrets tr = map (secretOf c) us.
Proof.
  induction 1 as [|u us e tr lg _ _ IH|u us e tr lg _ IH]; simpl;
    [reflexivity | |]; unfold createdSecrets in *; simpl; by rewrite IH.
Qed.

Lemma SecretTrace_length (c : Cluster) (us : list pgUser)
    (tr : list (Request * error)) (lg : list LogEntry) :
  SecretTrace c us tr lg -> length lg = length us.
Proof. induction 1; simpl; congruence. Qed.

Lemma secretOf_Data (c : Cluster) (u : pgUser) (k : string) :
  Data (secretOf c u) !! k =
    if decide (k = "username") then Some (username u)
    else if decide (k = "password") then Some (password u)
    else None.
Proof.
  unfold secretOf. simpl.
  destruct (decide (k = "username")) as [->|Hu].
  - rewrite lookup_insert_ne by done. apply lookup_insert_eq.
  - destruct (decide (k = "password")) as [->|Hp].
    + apply lookup_insert_eq.
    + rewrite !lookup_insert_ne by done. apply lookup_empty.
Qed.

(** C4: [applySecrets] never aborts.  For any platform it issues, for each
    user in turn, a create of that user's secret; when the platform answers
    "already exists" it issues an update of the same secret, whose data is
    exactly the user's username and password; any other answer is logged
    (one record per user) and the loop goes on with the next user. *)
Theorem applySecrets_best_effort (c : Cluster) (w : World) :
  fst (applySecrets c w) = Done tt /\
  SecretTrace c (pgUsers c) (issued (applySecrets c) w)
              (reported (applySecrets c) w) /\
  createdSecrets (issued (applySecrets c) w) = map (secretOf c) (pgUsers c) /\
  length (reported (applySecrets c) w) = length (pgUsers c) /\
  (forall (u : pgUser) (k : string),
     Data (secretOf c u) !! k =
       if decide (k = "username") then Some (username u)
       else if decide (k = "password") then Some (password u)
       else None).
Proof.
  destruct (applySecrets_run c w) as [Hdone Htr].
  split; [exact Hdone|]. split; [exact Htr|].
  split; [exact (SecretTrace_created _ _ _ _ Htr)|].
  split; [exact (SecretTrace_length _ _ _ _ Htr)|].
  apply secretOf_Data.
Qed.



(** *** Labels and names across the object kinds *)

Lemma resourceList_world (c : Cluster) (w : World) :
  exists o, resourceList c w = (o, w).
Proof.
  unfold resourceList, MustParse. unfold_m.
  repeat first
    [ progress simpl
    | match goal with
      | |- context [negb ?b] => destruct b
      | |- context [match ParseQuantity ?s with _ => _ end] =>
          destruct (ParseQuantity s)
      end ];
    eauto.
Qed.

Lemma createStatefulSet_issued (c : Cluster) (w : World) :
  issued (createStatefulSet c) w = [] \/
  exists rl e,
    issued (createStatefulSet c) w =
      [(StatefulSetsCreate (Namespace (config c)) (statefulSet c rl), e)].
Proof.
  destruct (resourceList_world c w) as [[rl|p] Hrl].
  - right. exists rl. eexists. apply issued_app.
    unfold exec, createStatefulSet. unfold_m. rewrite Hrl, call_run.
    reflexivity.
  - left. apply issued_app.
    unfold exec, createStatefulSet. unfold_m. rewrite Hrl.
    simpl. by rewrite app_nil_r.
Qed.

Lemma SecretTrace_labelled (c : Cluster) (us : list pgUser)
    (tr : list (Request * error)) (lg : list LogEntry) :
  SecretTrace c us tr lg -> labelled c tr.
Proof.
  unfold labelled. induction 1; repeat constructor; assumption.
Qed.

Lemma createService_issued (c : Cluster) (w : World) :
  let get := ServicesGet (Namespace (config c)) (clusterName c) in
  let create := ServicesCreate (Namespace (config c)) (service c) in
  let e := fst (kube get (platform w)) in
  issued (createService c) w =
    if k8sutil.ResourceNotFound e
    then [(get, e); (create, fst (kube create (snd (kube get (platform w)))))]
    else [(get, e)].
Proof.
  simpl. apply issued_app. unfold exec.
  pose proof (createService_run c w) as H. simpl in H. rewrite H.
  destruct (k8sutil.ResourceNotFound _); reflexivity.
Qed.

Lemma createEndPoint_issued (c : Cluster) (w : World) :
  let get := EndpointsGet (Namespace (config c)) (clusterName c) in
  let create := EndpointsCreate (Namespace (config c)) (endPoint c) in
  let e := fst (kube get (platform w)) in
  issued (createEndPoint c) w =
    if k8sutil.ResourceNotFound e
    then [(get, e); (create, fst (kube create (snd (kube get (platform w)))))]
    else [(get, e)].
Proof.
  simpl. apply issued_app. unfold exec.
  pose proof (createEndPoint_run c w) as H. simpl in H. rewrite H.
  destruct (k8sutil.ResourceNotFound _); reflexivity.
Qed.

(** C9: the workload set and its pod template, every credential secret, the
    service and the endpoint are built with the label set
    [ownershipLabels clusterName], and every object any of the four
    operations sends to the platform carries exactly that set. *)
Theorem ownership_labels (c : Cluster) (w : World) :
  (forall rl ns,
     requestLabels (StatefulSetsCreate ns (statefulSet c rl)) =
       [ownershipLabels (clusterName c); ownershipLabels (clusterName c)]) /\
  (forall u, Labels (SecretMeta (secretOf c u)) =
               ownershipLabels (clusterName c)) /\
  Labels (ServiceMeta (service c)) = ownershipLabels (clusterName c) /\
  Labels (EndpointsMeta (endPoint c)) = ownershipLabels (clusterName c) /\
  labelled c (issued (createStatefulSet c) w) /\
  labelled c (issued (applySecrets c) w) /\
  labelled c (issued (createService c) w) /\
  labelled c (issued (createEndPoint c) w).
Proof.
  repeat (split; [reflexivity|]).
  split; [|split; [|split]].
  - destruct (createStatefulSet_issued c w) as [->|(rl & e & ->)];
      unfold labelled; repeat constructor.
  - destruct (applySecrets_run c w) as [_ Htr].
    exact (SecretTrace_labelled _ _ _ _ Htr).
  - pose proof (createService_issued c w) as H. simpl in H. rewrite H.
    destruct (k8sutil.ResourceNotFound _); unfold labelled;
      repeat constructor.
  - pose proof (createEndPoint_issued c w) as H. simpl in H. rewrite H.
    destruct (k8sutil.ResourceNotFound _); unfold labelled;
      repeat constructor.
Qed.

(** C10: the synthesized workload set names [clusterName] as its governing
    service, and the service [createService] creates, in the same
    namespace, has that very name: every service create it issues is for
    it, and it issues one whenever the get is answered "not found". *)
Theorem governing_service_name (c : Cluster) (w w' : World) :
  wellFormed c = true ->
  exists rl : gmap string Quantity,
    map fst (issued (createStatefulSet c) w) =
      [StatefulSetsCreate (Namespace (config c)) (statefulSet c rl)] /\
    ServiceName (StatefulSetSpecOf (statefulSet c rl)) = clusterName c /\
    (forall ns svc e,
       In (ServicesCreate ns svc, e) (issued (createService c) w') ->
       ns = Namespace (config c) /\
       Name (ServiceMeta svc) =
         ServiceName (StatefulSetSpecOf (statefulSet c rl))) /\
    (fst (kube (ServicesGet (Namespace (config c)) (clusterName c))
               (platform w')) = Some ErrNotFound ->
     exists e,
       In (ServicesCreate (Namespace (config c)) (service c), e)
          (issued (createService c) w')).
Proof.
  intros Hwf.
  destruct (createStatefulSet_wellFormed c w Hwf) as (rl & _ & Hrun).
  simpl in Hrun. exists rl.
  split; [|split; [reflexivity|]].
  { erewrite issued_app; [|unfold exec; rewrite Hrun; reflexivity].
    reflexivity. }
  pose proof (createService_issued c w') as H. simpl in H. rewrite H.
  split.
  - intros ns svc e Hin.
    destruct (k8sutil.ResourceNotFound _); simpl in Hin.
    + destruct Hin as [Hin|[Hin|[]]]; [discriminate|].
      injection Hin as <- <- _. split; reflexivity.
    + destruct Hin as [Hin|[]]. discriminate.
  - intros ->. simpl. eexists. right. left. reflexivity.
Qed.

End Properties.

(** ** The get-then-create operations on the in-memory platform *)

Section Idempotence.
Context `{QP : QuantityParser} `{CN : ClusterNaming}.

#[local] Existing Instance MemoryPlatform.memory.

Import MemoryPlatform.

Lemma createService_absent (c : Cluster) (w : World) :
  services (platform w) !! (Namespace (config c), clusterName c) = None ->
  issued (createService c) w =
    [(ServicesGet (Namespace (config c)) (clusterName c), Some ErrNotFound);
     (ServicesCreate (Namespace (config c)) (service c), None)] /\
  services (platform (exec (createService c) w)) =
    <[(Namespace (config c), clusterName c) := service c]>
      (services (platform w)).
Proof.
  intros Habs.
  pose proof (createService_issued c w) as Hi.
  pose proof (createService_run c w) as Hr.
  simpl in Hi, Hr. unfold found in Hi, Hr. rewrite Habs in Hi, Hr.
  simpl in Hi, Hr. unfold clusterName in Habs. simpl in Habs.
  rewrite Habs in Hi, Hr. simpl in Hi, Hr.
  split; [exact Hi|]. unfold exec. rewrite Hr. reflexivity.
Qed.

Lemma createService_present (c : Cluster) (w : World) :
  is_Some (services (platform w) !! (Namespace (config c), clusterName c)) ->
  issued (createService c) w =
    [(ServicesGet (Namespace (config c)) (clusterName c), None)] /\
  platform (exec (createService c) w) = platform w.
Proof.
  intros [svc Hsvc].
  pose proof (createService_issued c w) as Hi.
  pose proof (createService_run c w) as Hr.
  simpl in Hi, Hr. unfold found in Hi, Hr. rewrite Hsvc in Hi, Hr.
  simpl in Hi, Hr.
  split; [exact Hi|]. unfold exec. rewrite Hr. reflexivity.
Qed.

Lemma createEndPoint_absent (c : Cluster) (w : World) :
  endpoints (platform w) !! (Namespace (config c), clusterName c) = None ->
  issued (createEndPoint c) w =
    [(EndpointsGet (Namespace (config c)) (clusterName c), Some ErrNotFound);
     (EndpointsCreate (Namespace (config c)) (endPoint c), None)] /\
  endpoints (platform (exec (createEndPoint c) w)) =
    <[(Namespace (config c), clusterName c) := endPoint c]>
      (endpoints (platform w)).
Proof.
  intros Habs.
  pose proof (createEndPoint_issued c w) as Hi.
  pose proof (createEndPoint_run c w) as Hr.
  simpl in Hi, Hr. unfold found in Hi, Hr. rewrite Habs in Hi, Hr.
  simpl in Hi, Hr. unfold clusterName in Habs. simpl in Habs.
  rewrite Habs in Hi, Hr. simpl in Hi, Hr.
  split; [exact Hi|]. unfold exec. rewrite Hr. reflexivity.
Qed.

Lemma createEndPoint_present (c : Cluster) (w : World) :
  is_Some (endpoints (platform w) !! (Namespace (config c), clusterName c)) ->
  issued (createEndPoint c) w =
    [(EndpointsGet (Namespace (config c)) (clusterName c), None)] /\
  platform (exec (createEndPoint c) w) = platform w.
Proof.
  intros [ep Hep].
  pose proof (createEndPoint_issued c w) as Hi.
  pose proof (createEndPoint_run c w) as Hr.
  simpl in Hi, Hr. unfold found in Hi, Hr. rewrite Hep in Hi, Hr.
  simpl in Hi, Hr.
  split; [exact Hi|]. unfold exec. rewrite Hr. reflexivity.
Qed.

(** C5: against any platform [createService] and [createEndPoint] issue a
    get and then a create exactly when the get was answered "not found";
    every other answer (success or another error) ends the operation after
    the get.  On the initially empty in-memory platform two invocations
    leave exactly one service (resp. endpoint), the one named after the
    cluster, and the second invocation issues only the get. *)
Theorem get_then_create_idempotent (c : Cluster) :
  (forall (KC : KubeClient) (w : @World QP KC),
     let get := ServicesGet (Namespace (config c)) (clusterName c) in
     map fst (issued (createService c) w) =
       if k8sutil.ResourceNotFound (fst (kube get (platform w)))
       then [get; ServicesCreate (Namespace (config c)) (service c)]
       else [get]) /\
  (forall (KC : KubeClient) (w : @World QP KC),
     let get := EndpointsGet (Namespace (config c)) (clusterName c) in
     map fst (issued (createEndPoint c) w) =
       if k8sutil.ResourceNotFound (fst (kube get (platform w)))
       then [get; EndpointsCreate (Namespace (config c)) (endPoint c)]
       else [get]) /\
  (let w1 := exec (createService c) emptyWorld in
   let w2 := exec (createService c) w1 in
   services (platform w2) =
     {[ (Namespace (config c), clusterName c) := service c ]} /\
   size (services (platform w2)) = 1%nat /\
   filter (fun r => mutating r = true)
          (map fst (issued (createService c) emptyWorld)) =
     [ServicesCreate (Namespace (config c)) (service c)] /\
   filter (fun r => mutating r = true)
          (map fst (issued (createService c) w1)) = []) /\
  (let w1 := exec (createEndPoint c) emptyWorld in
   let w2 := exec (createEndPoint c) w1 in
   endpoints (platform w2) =
     {[ (Namespace (config c), clusterName c) := endPoint c ]} /\
   size (endpoints (platform w2)) = 1%nat /\
   filter (fun r => mutating r = true)
          (map fst (issued (createEndPoint c) emptyWorld)) =
     [EndpointsCreate (Namespace (config c)) (endPoint c)] /\
   filter (fun r => mutating r = true)
          (map fst (issued (createEndPoint c) w1)) = []).
Proof.
  split; [|split; [|split]].
  - intros KC w. simpl.
    pose proof (@createService_issued QP KC CN c w) as H. simpl in H.
    rewrite H. by destruct (k8sutil.ResourceNotFound _).
  - intros KC w. simpl.
    pose proof (@createEndPoint_issued QP KC CN c w) as H. simpl in H.
    rewrite H. by destruct (k8sutil.ResourceNotFound _).
  - simpl.
    destruct (createService_absent c emptyWorld) as [Hi1 Hs1];
      [apply lookup_empty|].
    destruct (createService_present c (exec (createService c) emptyWorld))
      as [Hi2 Hs2]; [rewrite Hs1, lookup_insert_eq; eauto|].
    rewrite Hs2, Hs1, Hi1, Hi2. simpl. rewrite insert_empty.
    repeat split; try reflexivity. apply map_size_singleton.
  - simpl.
    destruct (createEndPoint_absent c emptyWorld) as [Hi1 Hs1];
      [apply lookup_empty|].
    destruct (createEndPoint_present c (exec (createEndPoint c) emptyWorld))
      as [Hi2 Hs2]; [rewrite Hs1, lookup_insert_eq; eauto|].
    rewrite Hs2, Hs1, Hi1, Hi2. simpl. rewrite insert_empty.
    repeat split; try reflexivity. apply map_size_singleton.
Qed.

End Idempotence.

(** ** The operations on a concrete cluster *)

Section Examples.
Import Fixtures.

#[local] Existing Instance Fixtures.quantities.
#[local] Existing Instance Fixtures.naming.
#[local] Existing Instance MemoryPlatform.memory.

Example parse_1Gi : parse "1Gi" = Ok {| number := 1; suffix := "Gi" |}.
Proof. reflexivity. Qed.

Example parse_not_a_quantity : parse "not-a-quantity" = Err ErrFormatWrong.
Proof. reflexivity. Qed.

(** C1, the claim as written fails: the value a malformed CPU string makes
    [createStatefulSet] fail with is the value the same string makes it fail
    with as memory string, so no reading of that value names the offending
    field. *)
Lemma malformed_quantity_field_not_named :
  ~ exists fieldOf : PanicValue -> string,
      forall c : Cluster,
        (Cpu (SpecResources (Spec (cluster c))) <> "" ->
         parses (Cpu (SpecResources (Spec (cluster c)))) = false ->
         exists p, fst (createStatefulSet c emptyWorld) = Panicked p /\
                   fieldOf p = v1.ResourceCPU) /\
        (Cpu (SpecResources (Spec (cluster c))) = "" ->
         Memory (SpecResources (Spec (cluster c))) <> "" ->
         parses (Memory (SpecResources (Spec (cluster c)))) = false ->
         exists p, fst (createStatefulSet c emptyWorld) = Panicked p /\
                   fieldOf p = v1.ResourceMemory).
Proof.
  intros [fieldOf H].
  destruct (H (acidTest "not-a-quantity" "" [])) as [Hcpu _].
  destruct (H (acidTest "" "not-a-quantity" [])) as [_ Hmem].
  destruct Hcpu as (p & Hp & Hf); [discriminate | reflexivity |].
  destruct Hmem as (p' & Hp' & Hf'); [reflexivity | discriminate | reflexivity |].
  vm_compute in Hp, Hp'. injection Hp as <-. injection Hp' as <-.
  rewrite Hf in Hf'. discriminate.
Qed.

Lemma createStatefulSet_malformed_quantity_witness :
  createStatefulSet (acidTest "" "not-a-quantity" [superuser]) emptyWorld =
    (Panicked {| offending := "not-a-quantity"; cause := ErrFormatWrong |},
     emptyWorld).
Proof.
  apply createStatefulSet_malformed_quantity.
  - discriminate.
  - reflexivity.
  - right. split; [left|]; reflexivity.
Defined.

Lemma createStatefulSet_single_create_witness :
  exists rl e,
    issued (createStatefulSet (acidTest "100m" "1Gi" [])) emptyWorld =
      [(StatefulSetsCreate "default"
          (statefulSet (acidTest "100m" "1Gi" []) rl), e)] /\
    fst (createStatefulSet (acidTest "100m" "1Gi" []) emptyWorld) = Done tt /\
    logged (exec (createStatefulSet (acidTest "100m" "1Gi" [])) emptyWorld) =
      [].
Proof.
  apply (createStatefulSet_single_create
           (acidTest "100m" "1Gi" []) emptyWorld).
  reflexivity.
Defined.

Lemma resource_requests_presence_witness :
  exists rl : gmap string Amount,
    map fst (issued (createStatefulSet (acidTest "" "1Gi" [])) emptyWorld) =
      [StatefulSetsCreate "default" (statefulSet (acidTest "" "1Gi" []) rl)] /\
    rl = {[ v1.ResourceMemory := {| number := 1; suffix := "Gi" |} ]} /\
    rl !! v1.ResourceCPU = None.
Proof.
  destruct (resource_requests_presence (acidTest "" "1Gi" []) emptyWorld)
    as (rl & Hissued & _ & _ & _ & _ & _ & _ & Hrl); [reflexivity|].
  destruct Hrl as (q & Hq & ->); [reflexivity | discriminate |].
  exists {[ v1.ResourceMemory := q ]}. split; [exact Hissued|].
  injection Hq as <-. split; reflexivity.
Defined.

Lemma workload_environment_witness :
  exists rl env,
    map fst (issued (createStatefulSet (acidTest "" "1Gi" [superuser]))
                    emptyWorld) =
      [StatefulSetsCreate "default"
         (statefulSet (acidTest "" "1Gi" [superuser]) rl)] /\
    map EnvName env =
      ["SCOPE"; "PGROOT"; "ETCD_HOST"; "POD_IP"; "POD_NAMESPACE";
       "PGPASSWORD_SUPERUSER"; "PGPASSWORD_STANDBY"] /\
    secretRefOf env "PGPASSWORD_SUPERUSER" =
      Some "superuser.acid-test.credentials".
Proof.
  destruct (workload_environment (acidTest "" "1Gi" [superuser]) emptyWorld)
    as (rl & env & Hissued & Henv & Hnames & _); [reflexivity|].
  exists rl, env. split; [exact Hissued|]. split; [exact Hnames|].
  injection Henv as <-. reflexivity.
Defined.


Lemma governing_service_name_witness :
  exists rl : gmap string Amount,
    map fst (issued (createStatefulSet (acidTest "" "1Gi" [])) emptyWorld) =
      [StatefulSetsCreate "default" (statefulSet (acidTest "" "1Gi" []) rl)] /\
    ServiceName (StatefulSetSpecOf (statefulSet (acidTest "" "1Gi" []) rl)) =
      "acid-test" /\
    exists e,
      In (ServicesCreate "default" (service (acidTest "" "1Gi" [])), e)
         (issued (createService (acidTest "" "1Gi" [])) emptyWorld).
Proof.
  destruct (governing_service_name (acidTest "" "1Gi" [])
              emptyWorld emptyWorld)
    as (rl & Hissued & Hname & _ & Hcreate); [reflexivity|].
  exists rl. split; [exact Hissued|]. split; [exact Hname|].
  apply Hcreate. reflexivity.
Defined.

(** C3, where the code departs from the claim: a second [createStatefulSet]
    for the same cluster is answered "already exists"; the operation
    returns normally and hands nothing to the logger, while the service
    path on the same platform logs the outcome of its attempt. *)
Theorem createStatefulSet_outcome_unreported :
  let c := acidTest "" "1Gi" [superuser; replication] in
  let w1 := exec (createStatefulSet c) emptyWorld in
  map snd (issued (createStatefulSet c) emptyWorld) = [None] /\
  reported (createStatefulSet c) emptyWorld = [] /\
  map snd (issued (createStatefulSet c) w1) = [Some ErrAlreadyExists] /\
  reported (createStatefulSet c) w1 = [] /\
  fst (createStatefulSet c w1) = Done tt /\
  reported (createService c) w1 =
    [{| level := InfoLevel; format := "Service created: %+v";
        args := [ArgService (service c)] |}].
Proof. vm_compute. repeat split; reflexivity. Qed.

(** Secret upsert on the in-memory platform: reconciling again with a
    changed password goes through the update branch and replaces the stored
    password under the same name. *)
Example applySecrets_upsert :
  let rotated := {| username := username superuser;
                    password := list_byte_of_string "n3w" |} in
  let w1 := exec (applySecrets (acidTest "" "1Gi" [superuser])) emptyWorld in
  let w2 := exec (applySecrets (acidTest "" "1Gi" [rotated])) w1 in
  map snd (issued (applySecrets (acidTest "" "1Gi" [rotated])) w1) =
    [Some ErrAlreadyExists; None] /\
  (Data <$> MemoryPlatform.secrets (platform w2)
              !! ("default", "superuser.acid-test.credentials"))
    ≫= (fun d => d !! "password") = Some (list_byte_of_string "n3w") /\
  size (MemoryPlatform.secrets (platform w2)) = 1%nat.
Proof. vm_compute. repeat split; reflexivity. Qed.

End Examples.

(** ** Further behaviour of the operations, on any platform *)

Section Behaviour.
Context `{QP : QuantityParser} `{KC : !KubeClient} `{CN : ClusterNaming}.

Lemma resourceList_malformed (c : Cluster) (w : World) :
  wellFormed c = false -> exists p, resourceList c w = (Panicked p, w).
Proof.
  unfold wellFormed, parses, resourceList, MustParse.
  unfold mbind, M_bind, bind, ret, panic.
  destruct (String.eqb (Cpu (SpecResources (Spec (cluster c)))) "");
    destruct (ParseQuantity (Cpu (SpecResources (Spec (cluster c)))));
    destruct (String.eqb (Memory (SpecResources (Spec (cluster c)))) "");
    destruct (ParseQuantity (Memory (SpecResources (Spec (cluster c)))));
    simpl; intros H; try discriminate H; eauto.
Qed.

(** [createStatefulSet] returns normally exactly for the well-formed specs;
    for every other spec it panics and leaves the platform, the request
    history and the log as they were. *)
Theorem createStatefulSet_returns_iff_wellFormed (c : Cluster) (w : World) :
  (fst (createStatefulSet c w) = Done tt <-> wellFormed c = true) /\
  (wellFormed c = false ->
   exists p, createStatefulSet c w = (Panicked p, w)).
Proof.
  assert (Hbad : wellFormed c = false ->
                 exists p, createStatefulSet c w = (Panicked p, w)).
  { intros H. destruct (resourceList_malformed c w H) as [p Hp].
    exists p. unfold createStatefulSet, mbind, M_bind, bind.
    rewrite Hp. reflexivity. }
  split; [|exact Hbad]. split.
  - intros Hdone. destruct (wellFormed c) eqn:E; [reflexivity|].
    destruct (Hbad eq_refl) as [p Hp]. rewrite Hp in Hdone. discriminate.
  - intros Hwf.
    destruct (createStatefulSet_wellFormed c w Hwf) as (rl & _ & Hrun).
    simpl in Hrun. rewrite Hrun. reflexivity.
Qed.

(** [createService] and [createEndPoint] never panic, whatever the spec and
    the platform.  Each invocation hands exactly one record to the logger
    and issues at most one mutating request; the record is an error record
    exactly when a mutating request was issued and failed. *)
Theorem get_then_create_reports_once (c : Cluster) (w : World) :
  (fst (createService c w) = Done tt /\
   (length (filter (fun r => mutating (fst r) = true)
                   (issued (createService c) w)) <= 1)%nat /\
   exists entry,
     reported (createService c) w = [entry] /\
     (level entry = ErrorLevel <->
      exists r, In r (issued (createService c) w) /\
                mutating (fst r) = true /\ failed r = true)) /\
  (fst (createEndPoint c w) = Done tt /\
   (length (filter (fun r => mutating (fst r) = true)
                   (issued (createEndPoint c) w)) <= 1)%nat /\
   exists entry,
     reported (createEndPoint c) w = [entry] /\
     (level entry = ErrorLevel <->
      exists r, In r (issued (createEndPoint c) w) /\
                mutating (fst r) = true /\ failed r = true)).
Proof.
  split.
  - pose proof (createService_issued c w) as Hi.
    pose proof (createService_run c w) as Hr. simpl in Hi, Hr.
    rewrite Hi.
    destruct (k8sutil.ResourceNotFound _).
    + rewrite Hr. split; [reflexivity|]. split; [simpl; lia|].
      eexists. split.
      * apply reported_app. unfold exec. rewrite Hr. reflexivity.
      * destruct (fst (kube (ServicesCreate _ _) _)) as [k|] eqn:E; simpl.
        -- split; [|reflexivity]. intros _. eexists. split; [right; left; reflexivity|].
           split; reflexivity.
        -- split; [discriminate|].
           intros (r & [<-|[<-|[]]] & Hm & Hf); discriminate.
    + rewrite Hr. split; [reflexivity|]. split; [simpl; lia|].
      eexists. split.
      * apply reported_app. unfold exec. rewrite Hr. reflexivity.
      * simpl. split; [discriminate|].
        intros (r & [<-|[]] & Hm & Hf). discriminate.
  - pose proof (createEndPoint_issued c w) as Hi.
    pose proof (createEndPoint_run c w) as Hr. simpl in Hi, Hr.
    rewrite Hi.
    destruct (k8sutil.ResourceNotFound _).
    + rewrite Hr. split; [reflexivity|]. split; [simpl; lia|].
      eexists. split.
      * apply reported_app. unfold exec. rewrite Hr. reflexivity.
      * destruct (fst (kube (EndpointsCreate _ _) _)) as [k|] eqn:E; simpl.
        -- split; [|reflexivity]. intros _. eexists. split; [right; left; reflexivity|].
           split; reflexivity.
        -- split; [discriminate|].
           intros (r & [<-|[<-|[]]] & Hm & Hf); discriminate.
    + rewrite Hr. split; [reflexivity|]. split; [simpl; lia|].
      eexists. split.
      * apply reported_app. unfold exec. rewrite Hr. reflexivity.
      * simpl. split; [discriminate|].
        intros (r & [<-|[]] & Hm & Hf). discriminate.
Qed.

(** [createService] and [createEndPoint], each on its own: whenever the get
    is answered with anything but "not found" (success, or an error of any
    kind and content) the operation stops after the get and logs one fixed
    info record, "already exists".  So a get that failed is logged with the
    very record of a get that found the object, and its error is not
    logged. *)
Theorem get_failure_reported_as_existing (c : Cluster) (w w' : World) :
  let getService := ServicesGet (Namespace (config c)) (clusterName c) in
  let getEndpoint := EndpointsGet (Namespace (config c)) (clusterName c) in
  let serviceExists :=
    {| level := InfoLevel; format := "Service '%s' already exists";
       args := [ArgString (clusterName c)] |} in
  let endpointExists :=
    {| level := InfoLevel; format := "Endpoint '%s' already exists";
       args := [ArgString (clusterName c)] |} in
  (fst (kube getService (platform w)) <> Some ErrNotFound ->
   issued (createService c) w =
     [(getService, fst (kube getService (platform w)))] /\
   reported (createService c) w = [serviceExists]) /\
  (fst (kube getEndpoint (platform w)) <> Some ErrNotFound ->
   issued (createEndPoint c) w =
     [(getEndpoint, fst (kube getEndpoint (platform w)))] /\
   reported (createEndPoint c) w = [endpointExists]) /\
  (fst (kube getService (platform w)) = None ->
   forall e, e <> ErrNotFound ->
     fst (kube getService (platform w')) = Some e ->
     reported (createService c) w' = reported (createService c) w /\
     ~ In (ArgError (Some e))
          (flat_map args (reported (createService c) w'))) /\
  (fst (kube getEndpoint (platform w)) = None ->
   forall e, e <> ErrNotFound ->
     fst (kube getEndpoint (platform w')) = Some e ->
     reported (createEndPoint c) w' = reported (createEndPoint c) w /\
     ~ In (ArgError (Some e))
          (flat_map args (reported (createEndPoint c) w'))).
Proof.
  simpl.
  assert (Hs : forall v : World,
            fst (kube (ServicesGet (Namespace (config c)) (clusterName c))
                      (platform v)) <> Some ErrNotFound ->
            issued (createService c) v =
              [(ServicesGet (Namespace (config c)) (clusterName c),
                fst (kube (ServicesGet (Namespace (config c)) (clusterName c))
                          (platform v)))] /\
            reported (createService c) v =
              [{| level := InfoLevel; format := "Service '%s' already exists";
                  args := [ArgString (clusterName c)] |}]).
  { intros v Hne.
    pose proof (createService_issued c v) as Hi.
    pose proof (createService_run c v) as Hr. simpl in Hi, Hr.
    destruct (fst (kube (ServicesGet _ _) (platform v))) as [[| |m]|];
      try congruence; simpl in Hi, Hr;
      (split; [exact Hi|]);
      apply reported_app; unfold exec; rewrite Hr; reflexivity. }
  assert (He : forall v : World,
            fst (kube (EndpointsGet (Namespace (config c)) (clusterName c))
                      (platform v)) <> Some ErrNotFound ->
            issued (createEndPoint c) v =
              [(EndpointsGet (Namespace (config c)) (clusterName c),
                fst (kube (EndpointsGet (Namespace (config c)) (clusterName c))
                          (platform v)))] /\
            reported (createEndPoint c) v =
              [{| level := InfoLevel; format := "Endpoint '%s' already exists";
                  args := [ArgString (clusterName c)] |}]).
  { intros v Hne.
    pose proof (createEndPoint_issued c v) as Hi.
    pose proof (createEndPoint_run c v) as Hr. simpl in Hi, Hr.
    destruct (fst (kube (EndpointsGet _ _) (platform v))) as [[| |m]|];
      try congruence; simpl in Hi, Hr;
      (split; [exact Hi|]);
      apply reported_app; unfold exec; rewrite Hr; reflexivity. }
  split; [exact (Hs w)|]. split; [exact (He w)|]. split.
  - intros Hfound e Hne Hfail.
    destruct (Hs w) as [_ Hr]; [congruence|].
    destruct (Hs w') as [_ Hr']; [congruence|].
    rewrite Hr, Hr'. split; [reflexivity|].
    simpl. intros [H|[]]. discriminate.
  - intros Hfound e Hne Hfail.
    destruct (He w) as [_ Hr]; [congruence|].
    destruct (He w') as [_ Hr']; [congruence|].
    rewrite Hr, Hr'. split; [reflexivity|].
    simpl. intros [H|[]]. discriminate.
Qed.

(** *** The credential loop over a list of users *)

Lemma applySecrets_cons (c : Cluster) (u : pgUser) (us : list pgUser)
    (w : World) :
  applySecrets (withUsers c (u :: us)) w =
  applySecrets (withUsers c us) (exec (applySecrets (withUsers c [u])) w).
Proof.
  unfold exec, applySecrets. simpl pgUsers. simpl forRange.
  change (forRange us _) with (applySecrets (withUsers c us)).
  change (secretOf (withUsers c (u :: us)) u) with (secretOf c u).
  change (secretOf (withUsers c [u]) u) with (secretOf c u).
  change (config (withUsers c (u :: us))) with (config c).
  change (config (withUsers c [u])) with (config c).
  unfold mbind, M_bind, bind, mret, M_ret, ret, Infof, Errorf, logf, call.
  destruct (kube (SecretsCreate _ _) (platform w)) as [e1 p1].
  destruct (k8sutil.IsKubernetesResourceAlreadyExistError e1).
  - simpl. destruct (kube (SecretsUpdate _ _) p1) as [[k|] p2]; reflexivity.
  - destruct e1 as [k|]; reflexivity.
Qed.

Lemma applySecrets_nil (c : Cluster) (w : World) :
  applySecrets (withUsers c []) w = (Done tt, w).
Proof. reflexivity. Qed.

(** Reconciling the credentials of [us1 ++ us2] is reconciling those of
    [us1] and then, from the world this leaves, those of [us2]: a failure
    among the first has no influence on how the rest is handled. *)
Theorem applySecrets_app (c : Cluster) (us1 us2 : list pgUser) (w : World) :
  applySecrets (withUsers c (us1 ++ us2)) w =
  applySecrets (withUsers c us2) (exec (applySecrets (withUsers c us1)) w).
Proof.
  revert w. induction us1 as [|u us1 IH]; intros w.
  - reflexivity.
  - change ((u :: us1) ++ us2) with (u :: (us1 ++ us2)).
    rewrite applySecrets_cons, IH. f_equal.
    unfold exec at 3. rewrite (applySecrets_cons c u us1 w). reflexivity.
Qed.

Lemma SecretTrace_bounds (c : Cluster) (us : list pgUser)
    (tr : list (Request * error)) (lg : list LogEntry) :
  SecretTrace c us tr lg ->
  (length us <= length tr <= 2 * length us)%nat /\
  Forall (fun r => onSecrets (fst r) = true /\
                   requestNamespace (fst r) = Namespace (config c)) tr.
Proof.
  induction 1 as [|u us e tr lg He _ IH|u us e tr lg _ IH]; simpl.
  - repeat split; [lia..|constructor].
  - destruct IH as ([? ?] & ?). repeat split; [lia..|].
    constructor; [split; reflexivity | assumption].
  - destruct IH as ([? ?] & ?). repeat split; [lia..|].
    repeat (constructor; [split; reflexivity|]). assumption.
Qed.

(** [applySecrets] issues between one and two requests per user, all of them
    creates or updates of secrets: it never reads from the platform and
    never addresses another kind of object.  With no user it does nothing
    at all. *)
Theorem applySecrets_request_bounds (c : Cluster) (w : World) :
  (length (pgUsers c) <= length (issued (applySecrets c) w)
     <= 2 * length (pgUsers c))%nat /\
  Forall (fun r => onSecrets (fst r) = true)
         (issued (applySecrets c) w) /\
  (pgUsers c = [] -> exec (applySecrets c) w = w).
Proof.
  destruct (applySecrets_run c w) as [_ Htr].
  destruct (SecretTrace_bounds _ _ _ _ Htr) as (Hlen & Hall).
  split; [exact Hlen|]. split.
  - eapply Forall_impl; [exact Hall|]. by intros r [? _].
  - intros Hnil. unfold exec, applySecrets. rewrite Hnil. reflexivity.
Qed.

(** Every request any of the four operations issues is addressed to the
    namespace of the cluster's configuration. *)
Theorem requests_stay_in_namespace (c : Cluster) (w : World) :
  let inNamespace := fun r : Request * error =>
    requestNamespace (fst r) = Namespace (config c) in
  Forall inNamespace (issued (createStatefulSet c) w) /\
  Forall inNamespace (issued (applySecrets c) w) /\
  Forall inNamespace (issued (createService c) w) /\
  Forall inNamespace (issued (createEndPoint c) w).
Proof.
  simpl. split; [|split; [|split]].
  - destruct (createStatefulSet_issued c w) as [->|(rl & e & ->)];
      repeat constructor.
  - destruct (applySecrets_run c w) as [_ Htr].
    destruct (SecretTrace_bounds _ _ _ _ Htr) as (_ & Hall).
    eapply Forall_impl; [exact Hall|]. by intros r [_ ?].
  - pose proof (createService_issued c w) as H. simpl in H. rewrite H.
    destruct (k8sutil.ResourceNotFound _); repeat constructor.
  - pose proof (createEndPoint_issued c w) as H. simpl in H. rewrite H.
    destruct (k8sutil.ResourceNotFound _); repeat constructor.
Qed.

(** Whatever the spec and the request map, the pod the workload set
    describes is consistent: its single container is named after the
    workload set, every volume it mounts is declared by the pod, and neither
    an environment variable name nor a container port occurs twice. *)
Theorem pod_template_consistent (c : Cluster) (rl : gmap string Quantity) :
  let ss := statefulSet c rl in
  let pod := TemplateSpec (Template (StatefulSetSpecOf ss)) in
  length (Containers pod) = 1%nat /\
  Forall (fun k =>
            ContainerName k = Name (StatefulSetMeta ss) /\
            Forall (fun m => In (MountName m) (map VolumeName (Volumes pod)))
                   (VolumeMounts k) /\
            NoDup (map EnvName (Env k)) /\
            NoDup (map ContainerPortNumber (Ports k)))
         (Containers pod).
Proof.
  simpl. split; [reflexivity|]. constructor; [|constructor].
  split; [reflexivity|]. split; [|split].
  - constructor; [left; reflexivity | constructor].
  - apply (bool_decide_unpack _). vm_compute. reflexivity.
  - apply (bool_decide_unpack _). vm_compute. reflexivity.
Qed.

End Behaviour.

(** ** The operations on the in-memory platform, from any state *)

Section StoreBehaviour.
Context `{QP : QuantityParser} `{CN : ClusterNaming}.

#[local] Existing Instance MemoryPlatform.memory.

Import MemoryPlatform.

Lemma Store_eq (s t : Store) :
  statefulSets s = statefulSets t -> secrets s = secrets t ->
  services s = services t -> endpoints s = endpoints t -> s = t.
Proof. destruct s, t; simpl; congruence. Qed.

(** One user: created when absent, updated when present; either way the
    secret ends up stored and the outcome is logged as a success. *)
Lemma applySecrets_single (c : Cluster) (u : pgUser) (w : World) :
  let w1 := exec (applySecrets (withUsers c [u])) w in
  secrets (platform w1) =
    <[secretKey c u := secretOf c u]> (secrets (platform w)) /\
  statefulSets (platform w1) = statefulSets (platform w) /\
  services (platform w1) = services (platform w) /\
  endpoints (platform w1) = endpoints (platform w) /\
  (exists entry, logged w1 = logged w ++ [entry] /\
                 level entry = InfoLevel) /\
  calls w1 =
    calls w ++
    match secrets (platform w) !! secretKey c u with
    | Some _ =>
        [(SecretsCreate (Namespace (config c)) (secretOf c u),
          Some ErrAlreadyExists);
         (SecretsUpdate (Namespace (config c)) (secretOf c u), None)]
    | None => [(SecretsCreate (Namespace (config c)) (secretOf c u), None)]
    end.
Proof.
  unfold exec, applySecrets, secretKey. simpl pgUsers. simpl forRange.
  change (secretOf (withUsers c [u]) u) with (secretOf c u).
  change (config (withUsers c [u])) with (config c).
  unfold mbind, M_bind, bind, mret, M_ret, ret, Infof, Errorf, logf, call.
  simpl.
  destruct (secrets (platform w) !! _) as [old|] eqn:E; simpl.
  - rewrite E. simpl. repeat split; eauto.
    by rewrite <- app_assoc.
  - repeat split; eauto.
Qed.

Lemma applySecrets_store (c : Cluster) (us : list pgUser) (w : World) :
  let w' := exec (applySecrets (withUsers c us)) w in
  secrets (platform w') = upsertSecrets c us (secrets (platform w)) /\
  statefulSets (platform w') = statefulSets (platform w) /\
  services (platform w') = services (platform w) /\
  endpoints (platform w') = endpoints (platform w) /\
  exists lg, logged w' = logged w ++ lg /\
             Forall (fun e => level e = InfoLevel) lg.
Proof.
  revert w. induction us as [|u us IH]; intros w.
  - simpl. repeat split. exists []. by rewrite app_nil_r.
  - simpl. unfold exec. rewrite applySecrets_cons.
    destruct (applySecrets_single c u w)
      as (Hs & Hss & Hsv & He & (entry & Hl & Hlevel) & _).
    destruct (IH (exec (applySecrets (withUsers c [u])) w))
      as (Hs' & Hss' & Hsv' & He' & (lg & Hl' & Hlg)).
    simpl in *. unfold exec in *.
    rewrite Hs', Hss', Hsv', He', Hs, Hss, Hsv, He.
    repeat split.
    exists (entry :: lg). rewrite Hl', Hl, <- app_assoc. simpl.
    split; [reflexivity|]. by constructor.
Qed.

Lemma upsertSecrets_other (c : Cluster) (us : list pgUser)
    (m : gmap (string * string) Secret) (k : string * string) :
  ~ In k (map (secretKey c) us) -> upsertSecrets c us m !! k = m !! k.
Proof.
  revert m. induction us as [|u us IH]; intros m Hk; [reflexivity|].
  change (upsertSecrets c (u :: us) m)
    with (upsertSecrets c us (<[secretKey c u := secretOf c u]> m)).
  rewrite IH.
  - apply lookup_insert_ne. intros Heq. apply Hk. left. exact Heq.
  - intros Hin. apply Hk. right. exact Hin.
Qed.

Lemma upsertSecrets_last (c : Cluster) (us1 us2 : list pgUser) (u : pgUser)
    (m : gmap (string * string) Secret) :
  ~ In (secretKey c u) (map (secretKey c) us2) ->
  upsertSecrets c (us1 ++ u :: us2) m !! secretKey c u = Some (secretOf c u).
Proof.
  intros Hlast. unfold upsertSecrets. rewrite foldl_app. simpl.
  fold (upsertSecrets c us1 m).
  match goal with |- foldl _ ?m' us2 !! _ = _ =>
    change (upsertSecrets c us2 m' !! secretKey c u = Some (secretOf c u)) end.
  rewrite upsertSecrets_other by assumption. apply lookup_insert_eq.
Qed.

Lemma last_occurrence {A B} (f : A -> B) (k : B) (l : list A) :
  (forall x y : B, {x = y} + {x <> y}) ->
  In k (map f l) ->
  exists l1 a l2, l = l1 ++ a :: l2 /\ f a = k /\ ~ In k (map f l2).
Proof.
  intros dec. induction l as [|a l IH]; simpl; [tauto|]. intros Hin.
  destruct (in_dec dec k (map f l)) as [Hl|Hl].
  - destruct (IH Hl) as (l1 & b & l2 & -> & Hb & Hnot).
    exists (a :: l1), b, l2. repeat split; assumption.
  - destruct Hin as [Ha|Hin]; [|tauto].
    exists [], a, l. repeat split; assumption.
Qed.

Lemma upsertSecrets_idempotent (c : Cluster) (us : list pgUser)
    (m : gmap (string * string) Secret) :
  upsertSecrets c us (upsertSecrets c us m) = upsertSecrets c us m.
Proof.
  apply map_eq. intros k.
  destruct (in_dec (fun x y => decide (x = y)) k (map (secretKey c) us))
    as [Hin|Hout].
  - destruct (last_occurrence (secretKey c) k us
                (fun x y => decide (x = y)) Hin)
      as (us1 & u & us2 & -> & <- & Hlast).
    by rewrite !upsertSecrets_last.
  - by rewrite !upsertSecrets_other.
Qed.

(** On the in-memory platform, from any state, [applySecrets] always
    succeeds: it writes the secret of each user in turn, creating or
    replacing as needed, touches no other kind of object and logs only
    success records. *)
Theorem applySecrets_upserts (c : Cluster) (w : World) :
  let w' := exec (applySecrets c) w in
  secrets (platform w') = upsertSecrets c (pgUsers c) (secrets (platform w)) /\
  statefulSets (platform w') = statefulSets (platform w) /\
  services (platform w') = services (platform w) /\
  endpoints (platform w') = endpoints (platform w) /\
  Forall (fun e => level e = InfoLevel) (reported (applySecrets c) w).
Proof.
  pose proof (applySecrets_store c (pgUsers c) w) as H.
  rewrite withUsers_self in H. simpl in *.
  destruct H as (Hs & Hss & Hsv & He & (lg & Hl & Hlg)).
  repeat split; try assumption.
  by rewrite (reported_app _ _ lg).
Qed.

(** After [applySecrets] the store holds, for each user, the secret built
    from the last credential in the list that shares its secret name
    (later entries overwrite earlier ones), and every secret stored under
    another key is still there unchanged: secrets of users that are no
    longer listed are not removed. *)
Theorem applySecrets_last_write_wins
    (c : Cluster) (w : World) (us1 us2 : list pgUser) (u : pgUser) :
  pgUsers c = us1 ++ u :: us2 ->
  ~ In (secretKey c u) (map (secretKey c) us2) ->
  secrets (platform (exec (applySecrets c) w)) !! secretKey c u =
    Some (secretOf c u) /\
  (forall k, ~ In k (map (secretKey c) (pgUsers c)) ->
     secrets (platform (exec (applySecrets c) w)) !! k =
     secrets (platform w) !! k).
Proof.
  intros Hus Hlast.
  pose proof (applySecrets_store c (pgUsers c) w) as H.
  rewrite withUsers_self in H. destruct H as (Hs & _). simpl in Hs.
  rewrite Hs. split.
  - rewrite Hus. by apply upsertSecrets_last.
  - intros k Hk. by apply upsertSecrets_other.
Qed.

Lemma upsertSecrets_present (c : Cluster) (us : list pgUser)
    (m : gmap (string * string) Secret) (u : pgUser) :
  In u us -> is_Some (upsertSecrets c us m !! secretKey c u).
Proof.
  intros Hin.
  destruct (last_occurrence (secretKey c) (secretKey c u) us
              (fun x y => decide (x = y)) (in_map _ _ _ Hin))
    as (us1 & v & us2 & -> & Hv & Hlast).
  rewrite <- Hv in *. rewrite upsertSecrets_last by assumption. eauto.
Qed.

Lemma applySecrets_calls_present (c : Cluster) (us : list pgUser)
    (w : World) :
  (forall u, In u us -> is_Some (secrets (platform w) !! secretKey c u)) ->
  calls (exec (applySecrets (withUsers c us)) w) =
    calls w ++
    flat_map (fun u =>
                [(SecretsCreate (Namespace (config c)) (secretOf c u),
                  Some ErrAlreadyExists);
                 (SecretsUpdate (Namespace (config c)) (secretOf c u), None)])
             us.
Proof.
  revert w. induction us as [|u us IH]; intros w Hall.
  - simpl. by rewrite app_nil_r.
  - unfold exec. rewrite applySecrets_cons.
    destruct (applySecrets_single c u w) as (Hs & _ & _ & _ & _ & Hc).
    simpl in Hs, Hc.
    destruct (Hall u (or_introl eq_refl)) as [old Hold].
    rewrite Hold in Hc.
    fold (exec (applySecrets (withUsers c us))
               (exec (applySecrets (withUsers c [u])) w)).
    rewrite IH.
    + rewrite Hc, <- app_assoc. reflexivity.
    + intros v Hv. rewrite Hs.
      destruct (decide (secretKey c u = secretKey c v)) as [->|Hne].
      * rewrite lookup_insert_eq. eauto.
      * rewrite lookup_insert_ne by assumption. apply Hall. by right.
Qed.

(** On the in-memory platform a second [applySecrets] changes nothing in
    the store, yet it is not a no-op towards the platform: for every user it
    issues a create that is answered "already exists" and then an update
    that rewrites the secret. *)
Theorem applySecrets_idempotent (c : Cluster) (w : World) :
  let w1 := exec (applySecrets c) w in
  platform (exec (applySecrets c) w1) = platform w1 /\
  issued (applySecrets c) w1 =
    flat_map (fun u =>
                [(SecretsCreate (Namespace (config c)) (secretOf c u),
                  Some ErrAlreadyExists);
                 (SecretsUpdate (Namespace (config c)) (secretOf c u), None)])
             (pgUsers c).
Proof.
  simpl.
  pose proof (applySecrets_store c (pgUsers c) w) as H1.
  pose proof (applySecrets_store c (pgUsers c) (exec (applySecrets c) w))
    as H2.
  rewrite withUsers_self in H1, H2. simpl in H1, H2.
  destruct H1 as (Hs1 & Hss1 & Hsv1 & He1 & _).
  destruct H2 as (Hs2 & Hss2 & Hsv2 & He2 & _).
  split.
  - apply Store_eq; try assumption.
    rewrite Hs2, Hs1. apply upsertSecrets_idempotent.
  - apply issued_app.
    pose proof (applySecrets_calls_present c (pgUsers c)
                  (exec (applySecrets c) w)) as Hc.
    rewrite withUsers_self in Hc. apply Hc.
    intros u Hu. rewrite Hs1. by apply upsertSecrets_present.
Qed.

(** *** The workload set, the service and the endpoint *)

(** [createStatefulSet] never replaces a workload set: when one of the
    cluster's name is already stored, the create is answered "already
    exists", the stored object stays as it is even if the spec has changed
    since, and nothing is logged. *)
Theorem createStatefulSet_keeps_existing
    (c : Cluster) (w : World) (old : StatefulSet) :
  wellFormed c = true ->
  statefulSets (platform w) !! (Namespace (config c), clusterName c) =
    Some old ->
  platform (exec (createStatefulSet c) w) = platform w /\
  map snd (issued (createStatefulSet c) w) = [Some ErrAlreadyExists] /\
  reported (createStatefulSet c) w = [].
Proof.
  intros Hwf Hold.
  destruct (createStatefulSet_wellFormed c w Hwf) as (rl & _ & Hrun).
  simpl in Hrun. unfold clusterName in Hold. rewrite Hold in Hrun.
  simpl in Hrun. split; [|split].
  - unfold exec. rewrite Hrun. reflexivity.
  - erewrite issued_app; [|unfold exec; rewrite Hrun; reflexivity].
    reflexivity.
  - apply reported_app. unfold exec. rewrite Hrun. simpl.
    by rewrite app_nil_r.
Qed.

Lemma createService_platform (c : Cluster) (w : World) :
  platform (exec (createService c) w) =
    {| statefulSets := statefulSets (platform w);
       secrets := secrets (platform w);
       services :=
         match services (platform w)
                 !! (Namespace (config c), clusterName c) with
         | Some _ => services (platform w)
         | None => <[(Namespace (config c), clusterName c) := service c]>
                     (services (platform w))
         end;
       endpoints := endpoints (platform w) |}.
Proof.
  pose proof (createService_run c w) as Hr. simpl in Hr.
  unfold exec. rewrite Hr. clear Hr. unfold found, clusterName.
  destruct (services (platform w) !! _) eqn:E; simpl.
  - by destruct (platform w).
  - reflexivity.
Qed.

Lemma createEndPoint_platform (c : Cluster) (w : World) :
  platform (exec (createEndPoint c) w) =
    {| statefulSets := statefulSets (platform w);
       secrets := secrets (platform w);
       services := services (platform w);
       endpoints :=
         match endpoints (platform w)
                 !! (Namespace (config c), clusterName c) with
         | Some _ => endpoints (platform w)
         | None => <[(Namespace (config c), clusterName c) := endPoint c]>
                     (endpoints (platform w))
         end |}.
Proof.
  pose proof (createEndPoint_run c w) as Hr. simpl in Hr.
  unfold exec. rewrite Hr. clear Hr. unfold found, clusterName.
  destruct (endpoints (platform w) !! _) eqn:E; simpl.
  - by destruct (platform w).
  - reflexivity.
Qed.

(** On the in-memory platform [createService] and [createEndPoint] each
    touch only their own kind of object, add at most the object named after
    the cluster and never alter or remove one that is stored; the two can
    run in either order, also for different clusters, with the same
    resulting platform state. *)
Theorem service_endpoint_independent (c c' : Cluster) (w : World) :
  (forall k, k <> (Namespace (config c), clusterName c) ->
     services (platform (exec (createService c) w)) !! k =
     services (platform w) !! k) /\
  (forall k old, services (platform w) !! k = Some old ->
     services (platform (exec (createService c) w)) !! k = Some old) /\
  (forall k, k <> (Namespace (config c'), clusterName c') ->
     endpoints (platform (exec (createEndPoint c') w)) !! k =
     endpoints (platform w) !! k) /\
  (forall k old, endpoints (platform w) !! k = Some old ->
     endpoints (platform (exec (createEndPoint c') w)) !! k = Some old) /\
  platform (exec (createEndPoint c') (exec (createService c) w)) =
  platform (exec (createService c) (exec (createEndPoint c') w)).
Proof.
  repeat split.
  - intros k Hk. rewrite createService_platform. simpl.
    destruct (services (platform w) !! _); [reflexivity|].
    by rewrite lookup_insert_ne.
  - intros k old Hold. rewrite createService_platform. simpl.
    destruct (services (platform w) !! (_, clusterName c)) eqn:E;
      [assumption|].
    rewrite lookup_insert_ne; [assumption|]. intros <-. congruence.
  - intros k Hk. rewrite createEndPoint_platform. simpl.
    destruct (endpoints (platform w) !! _); [reflexivity|].
    by rewrite lookup_insert_ne.
  - intros k old Hold. rewrite createEndPoint_platform. simpl.
    destruct (endpoints (platform w) !! (_, clusterName c')) eqn:E;
      [assumption|].
    rewrite lookup_insert_ne; [assumption|]. intros <-. congruence.
  - rewrite (createEndPoint_platform c' (exec (createService c) w)),
            (createService_platform c (exec (createEndPoint c') w)),
            (createService_platform c w), (createEndPoint_platform c' w).
    reflexivity.
Qed.

End StoreBehaviour.

(** ** Further runs on concrete clusters *)

Section MoreExamples.
Import Fixtures.

#[local] Existing Instance Fixtures.quantities.
#[local] Existing Instance Fixtures.naming.

Lemma get_failure_reported_as_existing_witness :
  let KC := MemoryPlatform.intermittent "connection refused" in
  let up := @Build_World quantities KC true [] [] in
  let down := @Build_World quantities KC false [] [] in
  map snd (@issued quantities KC unit
             (createService (acidTest "" "1Gi" [])) down) =
    [Some (ErrOther "connection refused")] /\
  @reported quantities KC unit (createService (acidTest "" "1Gi" [])) down =
  @reported quantities KC unit (createService (acidTest "" "1Gi" [])) up /\
  map level (@reported quantities KC unit
               (createEndPoint (acidTest "" "1Gi" [])) down) = [InfoLevel].
Proof.
  intros KC up down.
  destruct (@get_failure_reported_as_existing quantities KC naming
              (acidTest "" "1Gi" []) down down) as (Hs & He & _ & _).
  destruct (@get_failure_reported_as_existing quantities KC naming
              (acidTest "" "1Gi" []) up down) as (_ & _ & Hsame & _).
  destruct Hs as [Hi _]; [discriminate|].
  destruct He as [_ Hr]; [discriminate|].
  destruct (Hsame eq_refl (ErrOther "connection refused")) as [Heq _];
    [discriminate | reflexivity |].
  rewrite Hi, Hr, Heq. repeat split; reflexivity.
Defined.

#[local] Existing Instance MemoryPlatform.memory.

(** C6, the claim as written fails: a spec whose CPU string is not a
    quantity makes [createStatefulSet] panic at the first [MustParse],
    before the create; no request at all reaches the platform. *)
Lemma createStatefulSet_malformed_issues_no_create :
  let bad := acidTest "not-a-quantity" "" [] in
  issued (createStatefulSet bad) emptyWorld = [] /\
  fst (createStatefulSet bad emptyWorld) =
    Panicked {| offending := "not-a-quantity"; cause := ErrFormatWrong |} /\
  ~ exists (rl : gmap string Amount) (e : error),
      issued (createStatefulSet bad) emptyWorld =
        [(StatefulSetsCreate "default" (statefulSet bad rl), e)].
Proof.
  assert (H : issued (createStatefulSet (acidTest "not-a-quantity" "" []))
                     emptyWorld = []) by reflexivity.
  simpl. split; [exact H|]. split; [reflexivity|].
  intros (rl & e & Hone). rewrite H in Hone. discriminate.
Qed.

Lemma applySecrets_last_write_wins_witness :
  let rotated := {| username := username superuser;
                    password := list_byte_of_string "n3w" |} in
  let c := acidTest "" "1Gi" [superuser; replication; rotated] in
  MemoryPlatform.secrets (platform (exec (applySecrets c) emptyWorld))
    !! ("default", "superuser.acid-test.credentials") =
  Some (secretOf c rotated).
Proof.
  intros rotated c.
  destruct (applySecrets_last_write_wins c emptyWorld
              [superuser; replication] [] rotated) as [H _].
  - reflexivity.
  - intros [].
  - exact H.
Defined.

Lemma createStatefulSet_keeps_existing_witness :
  let w1 := exec (createStatefulSet (acidTest "" "1Gi" [])) emptyWorld in
  let c2 := acidTest "100m" "2Gi" [] in
  platform (exec (createStatefulSet c2) w1) = platform w1 /\
  map snd (issued (createStatefulSet c2) w1) = [Some ErrAlreadyExists] /\
  reported (createStatefulSet c2) w1 = [].
Proof.
  intros w1 c2.
  eapply (createStatefulSet_keeps_existing c2 w1).
  - reflexivity.
  - vm_compute. reflexivity.
Defined.

End MoreExamples.
